(** * PricePal: product normalization, fuzzy matching and price comparison

    A shallow embedding of the decision logic of the three comparison
    scripts of the repository

      - [price-comp.py]     (module [PriceComp]),
      - [price_compare.py]  (module [PriceCompare]),
      - [price_comp2.py]    (module [PriceComp2]),

    followed by the properties of the normalizers, the recency
    de-duplication, the match ranking and the totals aggregation. *)

From Stdlib Require Import ZArith List Ascii String Bool Lia Permutation Sorted.
From Stdlib Require Import SpecFloat.
From stdpp Require Import gmap strings.

Local Open Scope string_scope.
Local Open Scope Z_scope.

(* ===================================================================== *)
(** * Python values, exceptions and dictionaries *)
(* ===================================================================== *)

(** The values a [csv.DictReader] row holds: a string, or [None] for a
    field missing at the end of a short line. *)
Inductive pyval : Type :=
| PyNone
| PyStr (s : string).

#[global] Instance pyval_eq_dec : EqDecision pyval.
Proof. solve_decision. Defined.

(** The exceptions the modelled code can raise. *)
Inductive exn : Type :=
| ValueError
| TypeError
| KeyError
| AttributeError.

#[global] Instance exn_eq_dec : EqDecision exn.
Proof. solve_decision. Defined.

(** A computation either returns or raises. *)
Inductive result (A : Type) : Type :=
| Ok (a : A)
| Raise (e : exn).
Arguments Ok {A} a.
Arguments Raise {A} e.

#[global] Instance result_ret : MRet result := fun _ a => Ok a.

#[global] Instance result_bind : MBind result := fun _ _ k r =>
  match r with
  | Ok a => k a
  | Raise e => Raise e
  end.

(** [try: body except (handled): handler]. *)
Definition try_except {A : Type} (body : result A) (handled : list exn)
    (handler : result A) : result A :=
  match body with
  | Ok a => Ok a
  | Raise e => if bool_decide (e ∈ handled) then handler else Raise e
  end.

(** What a function whose body may end the process hands back. *)
Inductive outcome (A : Type) : Type :=
| Return (a : A)
| SysExit (code : Z).
Arguments Return {A} a.
Arguments SysExit {A} code.

(** A raw row: field name to value. *)
Abbreviation Row := (gmap string pyval).

(** [row.get(k)] *)
Definition dict_get (row : Row) (k : string) : pyval :=
  match row !! k with
  | Some v => v
  | None => PyNone
  end.

(** [row.get(k, d)] *)
Definition dict_get_default (row : Row) (k : string) (d : pyval) : pyval :=
  match row !! k with
  | Some v => v
  | None => d
  end.

(** [row[k]] *)
Definition dict_getitem (row : Row) (k : string) : result pyval :=
  match row !! k with
  | Some v => Ok v
  | None => Raise KeyError
  end.

(** Truth value of a row value: [None] and the empty string are false. *)
Definition truthy (v : pyval) : bool :=
  match v with
  | PyNone => false
  | PyStr EmptyString => false
  | PyStr _ => true
  end.

(* ===================================================================== *)
(** * Strings *)
(* ===================================================================== *)

(** A string is a sequence of bytes, and case mapping and white space are
    the ASCII ones. *)
Definition lower_ascii (c : ascii) : ascii :=
  let n := N_of_ascii c in
  if ((65 <=? n) && (n <=? 90))%N then ascii_of_N (n + 32) else c.

Fixpoint lower (s : string) : string :=
  match s with
  | EmptyString => EmptyString
  | String c s' => String (lower_ascii c) (lower s')
  end.

(** [str.isspace] on one ASCII character. *)
Definition is_space (c : ascii) : bool :=
  let n := N_of_ascii c in
  (((9 <=? n) && (n <=? 13)) || ((28 <=? n) && (n <=? 32)))%N.

Fixpoint lstrip (s : string) : string :=
  match s with
  | EmptyString => EmptyString
  | String c s' => if is_space c then lstrip s' else s
  end.

Fixpoint rstrip (s : string) : string :=
  match s with
  | EmptyString => EmptyString
  | String c s' =>
      match rstrip s' with
      | EmptyString => if is_space c then EmptyString else String c EmptyString
      | r => String c r
      end
  end.

(** [s.strip()] *)
Definition strip (s : string) : string := rstrip (lstrip s).

(** [s.startswith(p)] *)
Fixpoint startswith (p s : string) : bool :=
  match p, s with
  | EmptyString, _ => true
  | String a p', String b s' => if ascii_dec a b then startswith p' s' else false
  | String _ _, EmptyString => false
  end.

(** [q in s] on strings. *)
Fixpoint str_in (q s : string) : bool :=
  startswith q s ||
  match s with
  | EmptyString => false
  | String _ s' => str_in q s'
  end.

(** [v.lower()] and [v.strip()] on a row value: [None] has neither. *)
Definition py_lower (v : pyval) : result string :=
  match v with
  | PyStr s => Ok (lower s)
  | PyNone => Raise AttributeError
  end.

Definition py_strip (v : pyval) : result string :=
  match v with
  | PyStr s => Ok (strip s)
  | PyNone => Raise AttributeError
  end.

(* ===================================================================== *)
(** * Floats *)
(* ===================================================================== *)

(** A Python [float] is an IEEE 754 binary64 number; the operations are the
    ones of the standard library's executable specification. *)
Abbreviation float := spec_float.

Definition prec : Z := 53.
Definition emax : Z := 1024.

Definition f_zero : float := S754_zero false.
Definition f_add : float -> float -> float := SFadd prec emax.
Definition f_sub : float -> float -> float := SFsub prec emax.
Definition f_abs : float -> float := SFabs.
Definition f_eqb : float -> float -> bool := SFeqb.
Definition f_ltb : float -> float -> bool := SFltb.
Definition f_leb : float -> float -> bool := SFleb.

(** [bool(x)] on a float: every value but the two zeros is true. *)
Definition f_truthy (x : float) : bool := negb (f_eqb x f_zero).

(** [a or b] on floats. *)
Definition f_or (a b : float) : float := if f_truthy a then a else b.

(** The correctly rounded value of [(-1)^s * n * 10^k]. *)
Definition float_of_decimal (s : bool) (n : Z) (k : Z) : float :=
  if n =? 0 then S754_zero s
  else if 0 <=? k then binary_normalize prec emax (if s then - (n * 10 ^ k) else n * 10 ^ k) 0 s
  else
    let '(q, e, l) := SFdiv_core_binary prec emax n 0 (10 ^ (- k)) 0 in
    binary_round_aux prec emax s q e l.

(** ** The grammar of [float(str)] *)

Definition is_digit (c : ascii) : bool :=
  let n := N_of_ascii c in ((48 <=? n) && (n <=? 57))%N.

Definition digit_val (c : ascii) : Z := Z.of_N (N_of_ascii c) - 48.

Definition is_underscore (c : ascii) : bool := (N_of_ascii c =? 95)%N.

(** The longest prefix made of digits and underscores, and what follows. *)
Fixpoint span_digitpart (l : list ascii) : list ascii * list ascii :=
  match l with
  | c :: l' =>
      if is_digit c || is_underscore c
      then let '(d, r) := span_digitpart l' in (c :: d, r)
      else ([], l)
  | [] => ([], [])
  end.

(** [digit (["_"] digit)*]: underscores stand alone between two digits. *)
Fixpoint digitpart_ok (prev_digit : bool) (l : list ascii) : bool :=
  match l with
  | [] => prev_digit
  | c :: l' =>
      if is_digit c then digitpart_ok true l'
      else prev_digit && digitpart_ok false l'
  end.

Definition digits_of (l : list ascii) : list ascii := List.filter is_digit l.

Definition Z_of_digits (l : list ascii) : Z :=
  fold_left (fun acc c => 10 * acc + digit_val c) l 0.

(** An optional sign: [true] for [-]. *)
Definition take_sign (l : list ascii) : bool * list ascii :=
  match l with
  | "+"%char :: l' => (false, l')
  | "-"%char :: l' => (true, l')
  | _ => (false, l)
  end.

(** The exponent part, when there is one: its value, or [None] when what
    follows the number is no exponent. *)
Definition parse_exponent (l : list ascii) : option Z :=
  match l with
  | [] => Some 0
  | c :: l' =>
      if bool_decide (c = "e"%char) || bool_decide (c = "E"%char) then
        let '(s, l'') := take_sign l' in
        let '(d, r) := span_digitpart l'' in
        match r with
        | [] => if digitpart_ok false d
                then Some (if s then - Z_of_digits (digits_of d) else Z_of_digits (digits_of d))
                else None
        | _ => None
        end
      else None
  end.

(** [number [exponent]]: the digits as an integer and the power of ten. *)
Definition parse_number (l : list ascii) : option (Z * Z) :=
  let '(i, r) := span_digitpart l in
  match r with
  | "."%char :: r' =>
      let '(f, r'') := span_digitpart r' in
      let ok_i := match i with [] => true | _ => digitpart_ok false i end in
      let ok_f := match f with [] => negb (bool_decide (i = [])) | _ => digitpart_ok false f end in
      if ok_i && ok_f then
        match parse_exponent r'' with
        | Some e =>
            Some (Z_of_digits (digits_of i ++ digits_of f),
                  e - Z.of_nat (length (digits_of f)))
        | None => None
        end
      else None
  | _ =>
      if digitpart_ok false i then
        match parse_exponent r with
        | Some e => Some (Z_of_digits (digits_of i), e)
        | None => None
        end
      else None
  end.

(** [float(s)] on a string: [None] stands for [ValueError]. *)
Definition float_of_string (s : string) : option float :=
  let '(sg, body) := take_sign (list_ascii_of_string (strip s)) in
  let low := lower (string_of_list_ascii body) in
  if bool_decide (low = "inf") || bool_decide (low = "infinity") then Some (S754_infinity sg)
  else if bool_decide (low = "nan") then Some S754_nan
  else match parse_number body with
       | Some (n, k) => Some (float_of_decimal sg n k)
       | None => None
       end.

(** [float(v)] on a row value. *)
Definition py_float (v : pyval) : result float :=
  match v with
  | PyNone => Raise TypeError
  | PyStr s =>
      match float_of_string s with
      | Some x => Ok x
      | None => Raise ValueError
      end
  end.

(** [float(row.get(k, 0))]: the default is the integer zero. *)
Definition py_float_get0 (row : Row) (k : string) : result float :=
  match row !! k with
  | Some v => py_float v
  | None => Ok f_zero
  end.

(** The literal [0.01]. *)
Definition f_0_01 : float := Eval vm_compute in float_of_decimal false 1 (-2).

(* ===================================================================== *)
(** * The data model *)
(* ===================================================================== *)

(** The [Product] dataclass.  Python does not enforce the annotation
    [name: str]: a loader that copies [row['name']] verbatim stores whatever
    the row holds, so the record is parametric in the type of the name.
    The matcher, which calls [.lower()] on the name, works on
    [Product string]. *)
Record Product (N : Type) : Type := mkProduct {
  name : N;
  price : float;
  store : string;
  size : pyval;
  unit : pyval;
  brand : pyval;
  sku : pyval
}.
Arguments mkProduct {N} _ _ _ _ _ _ _.
Arguments name {N} _.
Arguments price {N} _.
Arguments store {N} _.
Arguments size {N} _.
Arguments unit {N} _.
Arguments brand {N} _.
Arguments sku {N} _.

(** A catalog is the ordered list of products of one store. *)
Abbreviation Catalog := (list (Product string)).

(** The [PriceComparison] dataclass. *)
Record PriceComparison (N : Type) : Type := mkPriceComparison {
  tj_total : float;
  wf_total : float;
  savings : float;
  cheaper_store : string;
  items : list (option (Product N) * option (Product N))
}.
Arguments mkPriceComparison {N} _ _ _ _ _.
Arguments tj_total {N} _.
Arguments wf_total {N} _.
Arguments savings {N} _.
Arguments cheaper_store {N} _.
Arguments items {N} _.

(* ===================================================================== *)
(** * Sorting, as [sorted(..., key=..., reverse=True)] does *)
(* ===================================================================== *)

Section Sorted.
Context {A : Type} (key : A -> Z).

(** [x] comes from before every element of [l]: it goes in front of the
    first element whose key is not greater than its own. *)
Fixpoint insert_desc (x : A) (l : list A) : list A :=
  match l with
  | [] => [x]
  | y :: l' => if key x <? key y then y :: insert_desc x l' else x :: y :: l'
  end.

(** A stable sort by decreasing key. *)
Fixpoint sorted_desc (l : list A) : list A :=
  match l with
  | [] => []
  | x :: l' => insert_desc x (sorted_desc l')
  end.

End Sorted.

(* ===================================================================== *)
(** * The match ranking shared by the three scripts *)
(* ===================================================================== *)

Section Ranking.
(** [fuzz.ratio] of the [thefuzz] package: an integer similarity. *)
Variable fuzz_ratio : string -> string -> Z.

(** The score the loop assigns to a product: 100 when the (lower-cased)
    query is contained in the lower-cased name, the fuzzy ratio otherwise. *)
Definition assigned_ratio (query : string) (product : Product string) : Z :=
  if str_in query (lower (name product)) then 100
  else fuzz_ratio query (lower (name product)).

(** The loop: the products whose assigned score reaches the threshold,
    in catalog order.  [query] is already lower-cased. *)
Definition threshold_matches (query : string) (products : Catalog)
    (threshold : Z) : Catalog :=
  List.filter (fun product => threshold <=? assigned_ratio query product) products.

(** The sort key of the [return] statement. *)
Definition sort_key (query : string) (x : Product string) : Z :=
  fuzz_ratio query (lower (name x)).

(** [sorted(matches, key=lambda x: fuzz.ratio(query, x.name.lower()),
            reverse=True)] *)
Definition ranked_matches (query : string) (products : Catalog)
    (threshold : Z) : Catalog :=
  sorted_desc (sort_key (lower query))
              (threshold_matches (lower query) products threshold).

End Ranking.

(* ===================================================================== *)
(** * The totals of a comparison session *)
(* ===================================================================== *)

Section Totals.
Context {N : Type}.

(** [if product: total += product.price] *)
Definition add_price (total : float) (product : option (Product N)) : float :=
  match product with
  | Some p => f_add total (price p)
  | None => total
  end.

(** The two running totals after the pairs chosen so far. *)
Definition running_totals
    (comparisons : list (option (Product N) * option (Product N))) : float * float :=
  fold_left (fun t c => (add_price (fst t) (fst c), add_price (snd t) (snd c)))
            comparisons (f_zero, f_zero).

(** The statements after the loop of [compare_items]. *)
Definition summarize
    (comparisons : list (option (Product N) * option (Product N))) : PriceComparison N :=
  let tj := fst (running_totals comparisons) in
  let wf := snd (running_totals comparisons) in
  mkPriceComparison tj wf (f_abs (f_sub tj wf))
                    (if f_ltb tj wf then "TJ" else "WF") comparisons.

End Totals.

(* ===================================================================== *)
(** * price-comp.py *)
(* ===================================================================== *)

Module PriceComp.

Definition meaningful_keywords : list string :=
  [ "olive"; "oil"; "organic"; "tuna"; "virgin";
    "extra virgin"; "white"; "potato"; "chips";
    "anchovy"; "couscous"; "rice"; "garlic" ].

(** The filtering step of [_parse_row]: [true] when the row is dropped. *)
Definition filtered_out (row : Row) (store : string) (price : float) : result bool :=
  if bool_decide (store = "WF") then
    if f_eqb price f_0_01 then
      item_title ← py_lower (dict_get_default row "item_title" (PyStr ""));
      mret (negb (existsb (fun keyword => str_in keyword item_title) meaningful_keywords))
    else mret false
  else if bool_decide (store = "TJ") then mret (f_leb price f_0_01)
  else mret false.

(** [StoreDataLoader._parse_row] *)
Definition _parse_row (row : Row) (store : string) : result (option (Product string)) :=
  try_except
    (price ← py_float (dict_get_default row "retail_price" (PyStr "0"));
     drop ← filtered_out row store price;
     if (drop : bool) then mret None
     else
       nm ← py_strip (dict_get_default row "item_title" (PyStr ""));
       mret (Some (mkProduct nm price store PyNone PyNone PyNone (dict_get row "sku"))))
    [ValueError; TypeError]
    (mret None).

(** [for row in reader: product = self._parse_row(row, store_name); ...] *)
Fixpoint parse_rows (rows : list Row) (store : string) : result (list (Product string)) :=
  match rows with
  | [] => mret []
  | row :: rest =>
      product ← _parse_row row store;
      products ← parse_rows rest store;
      mret (match product with Some p => p :: products | None => products end)
  end.

(** Equality of the dictionary keys [(product.name, product.price)]. *)
Definition unique_key_eqb (k1 k2 : string * float) : bool :=
  bool_decide (fst k1 = fst k2) && f_eqb (snd k1) (snd k2).

Fixpoint remove_duplicates_loop (products : list (Product string))
    (unique_products : list ((string * float) * Product string))
  : list ((string * float) * Product string) :=
  match products with
  | [] => unique_products
  | product :: rest =>
      let unique_key := (name product, price product) in
      if existsb (fun e => unique_key_eqb (fst e) unique_key) unique_products
      then remove_duplicates_loop rest unique_products
      else remove_duplicates_loop rest (unique_products ++ [(unique_key, product)])
  end.

(** [StoreDataLoader._remove_duplicates] *)
Definition _remove_duplicates (products : list (Product string)) : list (Product string) :=
  List.map snd (remove_duplicates_loop products []).

(** [StoreDataLoader.load_data] (the second definition of the class, which
    replaces the first) on the rows the reader yields: any exception that
    leaves the loop is caught and the load returns [[]]. *)
Definition load_data (rows : list Row) (store_name : string) : list (Product string) :=
  match parse_rows rows store_name with
  | Ok products => _remove_duplicates products
  | Raise _ => []
  end.

Section Comparer.
Variable fuzz_ratio : string -> string -> Z.
(** The answer of the user to [_display_matches]: one of the products
    shown, or nothing. *)
Variable prompt : string -> string -> Catalog -> option (Product string).

(** [EnhancedPriceComparer._find_matches] *)
Definition _find_matches (query : string) (products : Catalog) (threshold : Z) : Catalog :=
  firstn 10 (ranked_matches fuzz_ratio query products threshold).

(** [EnhancedPriceComparer._display_matches] *)
Definition _display_matches (matches : Catalog) (store query : string)
  : option (Product string) :=
  match matches with
  | [] => None
  | _ => prompt store query matches
  end.

(** One turn of the loop of [compare_items]. *)
Definition compare_item (tj_products wf_products : Catalog) (item : string)
  : option (Product string) * option (Product string) :=
  (_display_matches (_find_matches item tj_products 65) "Trader Joe's" item,
   _display_matches (_find_matches item wf_products 65) "Whole Foods" item).

(** [EnhancedPriceComparer.compare_items], on the items entered. *)
Definition compare_items (tj_products wf_products : Catalog) (entered : list string)
  : PriceComparison string :=
  summarize (List.map (compare_item tj_products wf_products) entered).

End Comparer.
End PriceComp.

(* ===================================================================== *)
(** * price_compare.py *)
(* ===================================================================== *)

Module PriceCompare.

(** [StoreDataLoader._parse_wf_row] *)
Definition _parse_wf_row (row : Row) : result (option (Product pyval)) :=
  regular_price ← py_float_get0 row "regularPrice";
  sale_price ← py_float_get0 row "salePrice";
  incremental_price ← py_float_get0 row "incrementalSalePrice";
  let price := f_or (f_or incremental_price sale_price) regular_price in
  if negb (f_truthy price) then mret None
  else
    nm ← dict_getitem row "name";
    mret (Some (mkProduct nm price "WF" PyNone (dict_get row "uom") (dict_get row "brand") PyNone)).

(** [StoreDataLoader._parse_tj_row] *)
Definition _parse_tj_row (row : Row) : result (option (Product pyval)) :=
  if negb (truthy (dict_get row "retail_price"))
     || bool_decide (dict_get row "retail_price" = PyStr "0.01")
  then mret None
  else
    try_except
      (v ← dict_getitem row "retail_price";
       price ← py_float v;
       nm ← dict_getitem row "item_title";
       mret (Some (mkProduct nm price "TJ" PyNone PyNone PyNone PyNone)))
      [ValueError; KeyError]
      (mret None).

(** [StoreDataLoader._parse_row] *)
Definition _parse_row (row : Row) (store : string) : result (option (Product pyval)) :=
  try_except
    (if bool_decide (store = "WF") then _parse_wf_row row else _parse_tj_row row)
    [ValueError; KeyError]
    (mret None).

Fixpoint parse_rows (rows : list Row) (store : string) : result (list (Product pyval)) :=
  match rows with
  | [] => mret []
  | row :: rest =>
      product ← _parse_row row store;
      products ← parse_rows rest store;
      mret (match product with Some p => p :: products | None => products end)
  end.

(** [StoreDataLoader.load_data] on the rows the reader yields: an exception
    that leaves the loop ends the process with [sys.exit(1)]. *)
Definition load_data (rows : list Row) (store_name : string) : outcome (list (Product pyval)) :=
  match parse_rows rows store_name with
  | Ok products => Return products
  | Raise _ => SysExit 1
  end.

(** [EnhancedPriceComparer._find_matches], [_display_matches] and
    [compare_items] are, statement for statement, the ones of price-comp.py. *)
Definition _find_matches := PriceComp._find_matches.
Definition _display_matches := PriceComp._display_matches.
Definition compare_items := PriceComp.compare_items.

End PriceCompare.

(* ===================================================================== *)
(** * Timestamps *)
(* ===================================================================== *)

(** A naive [datetime], to the second. *)
Record datetime : Type := mkDatetime {
  dt_year : Z; dt_month : Z; dt_day : Z;
  dt_hour : Z; dt_minute : Z; dt_second : Z
}.

Definition dt_fields (d : datetime) : list Z :=
  [dt_year d; dt_month d; dt_day d; dt_hour d; dt_minute d; dt_second d].

(** Datetimes compare field by field, the year first. *)
Fixpoint lex_compare (a b : list Z) : comparison :=
  match a, b with
  | [], [] => Eq
  | [], _ :: _ => Lt
  | _ :: _, [] => Gt
  | x :: a', y :: b' =>
      match x ?= y with
      | Eq => lex_compare a' b'
      | c => c
      end
  end.

(** [a > b] *)
Definition dt_gt (a b : datetime) : bool :=
  match lex_compare (dt_fields a) (dt_fields b) with
  | Gt => true
  | _ => false
  end.

(** ** A reader of zero-padded ['%Y-%m-%d %H:%M:%S'] timestamps *)

Definition two_digits (a b : ascii) : option Z :=
  if is_digit a && is_digit b then Some (10 * digit_val a + digit_val b) else None.

Definition is_leap (y : Z) : bool :=
  ((y mod 4 =? 0) && negb (y mod 100 =? 0)) || (y mod 400 =? 0).

Definition days_in_month (y m : Z) : Z :=
  if m =? 2 then (if is_leap y then 29 else 28)
  else if (m =? 4) || (m =? 6) || (m =? 9) || (m =? 11) then 30
  else 31.

Definition valid_datetime (d : datetime) : bool :=
  (1 <=? dt_year d) && (1 <=? dt_month d) && (dt_month d <=? 12)
  && (1 <=? dt_day d) && (dt_day d <=? days_in_month (dt_year d) (dt_month d))
  && (dt_hour d <=? 23) && (dt_minute d <=? 59) && (dt_second d <=? 59).

(** The strings [datetime.strftime] writes under that format, read back;
    [None] stands for [ValueError]. *)
Definition strptime_padded (s : string) : option datetime :=
  match list_ascii_of_string s with
  | [y1; y2; y3; y4; "-"%char; m1; m2; "-"%char; d1; d2; " "%char;
     h1; h2; ":"%char; n1; n2; ":"%char; s1; s2] =>
      match two_digits y1 y2, two_digits y3 y4, two_digits m1 m2, two_digits d1 d2,
            two_digits h1 h2, two_digits n1 n2, two_digits s1 s2 with
      | Some ya, Some yb, Some mo, Some dd, Some hh, Some mi, Some ss =>
          let d := mkDatetime (100 * ya + yb) mo dd hh mi ss in
          if valid_datetime d then Some d else None
      | _, _, _, _, _, _, _ => None
      end
  | _ => None
  end.

(* ===================================================================== *)
(** * price_comp2.py *)
(* ===================================================================== *)

Module PriceComp2.

Module WFPricesFetcher.

(** The body of the loop of [_load_csv]: [None] is [continue]. *)
Definition load_row (row : Row) : result (option (Product pyval)) :=
  try_except
    (regular_price ← py_float_get0 row "regularPrice";
     sale_price ← py_float_get0 row "salePrice";
     incremental_price ← py_float_get0 row "incrementalSalePrice";
     let price := f_or (f_or incremental_price sale_price) regular_price in
     if negb (f_truthy price) then mret None
     else
       nm ← dict_getitem row "name";
       mret (Some (mkProduct nm price "WF" PyNone (dict_get row "uom")
                             (dict_get row "brand") PyNone)))
    [ValueError; KeyError]
    (mret None).

Fixpoint load_rows (rows : list Row) (products : list (Product pyval))
  : result (list (Product pyval)) :=
  match rows with
  | [] => mret products
  | row :: rest =>
      product ← load_row row;
      load_rows rest (match product with Some p => products ++ [p] | None => products end)
  end.

(** [WFPricesFetcher._load_csv] on the rows the reader yields. *)
Definition _load_csv (rows : list Row) : outcome (list (Product pyval)) :=
  match load_rows rows [] with
  | Ok products => Return products
  | Raise _ => SysExit 1
  end.

Section Matching.
Variable fuzz_ratio : string -> string -> Z.

(** [WFPricesFetcher.find_matches] *)
Definition find_matches (products : Catalog) (query : string) (threshold : Z) : Catalog :=
  ranked_matches fuzz_ratio query products threshold.

End Matching.
End WFPricesFetcher.

Module TJPricesFetcher.

(** A value of [temp_products]: [{'price': ..., 'date': ...}]. *)
Record entry : Type := mkEntry { e_price : float; e_date : pyval }.

(** [temp_products]: a dictionary, in insertion order. *)
Abbreviation TempProducts := (list (pyval * entry)).

(** [temp_products[title]], when [title in temp_products]. *)
Fixpoint temp_lookup (title : pyval) (temp_products : TempProducts) : option entry :=
  match temp_products with
  | [] => None
  | (k, e) :: rest => if bool_decide (k = title) then Some e else temp_lookup title rest
  end.

(** [temp_products[title] = e]: a known key keeps its place. *)
Fixpoint temp_store (title : pyval) (e : entry) (temp_products : TempProducts) : TempProducts :=
  match temp_products with
  | [] => [(title, e)]
  | (k, e') :: rest =>
      if bool_decide (k = title) then (k, e) :: rest
      else (k, e') :: temp_store title e rest
  end.

Definition default_date : pyval := PyStr "2000-01-01 00:00:00".

Section Loading.
(** [datetime.strptime(s, '%Y-%m-%d %H:%M:%S')]; [None] is [ValueError]. *)
Variable strptime : string -> option datetime.

Definition py_strptime (v : pyval) : result datetime :=
  match v with
  | PyNone => Raise TypeError
  | PyStr s =>
      match strptime s with
      | Some d => Ok d
      | None => Raise ValueError
      end
  end.

(** The condition of the update: [title not in temp_products or
    strptime(row.get('inserted_at', ...)) > strptime(temp_products[title]['date'])]. *)
Definition should_update (row : Row) (title : pyval) (temp_products : TempProducts)
  : result bool :=
  match temp_lookup title temp_products with
  | None => mret true
  | Some e =>
      d_row ← py_strptime (dict_get_default row "inserted_at" default_date);
      d_kept ← py_strptime (e_date e);
      mret (dt_gt d_row d_kept)
  end.

(** [try: price = float(row['retail_price']) except (ValueError, KeyError):
    continue]; [None] is the [continue]. *)
Definition read_price (row : Row) : result (option float) :=
  try_except
    (v ← dict_getitem row "retail_price";
     price ← py_float v;
     mret (Some price))
    [ValueError; KeyError]
    (mret None).

(** The body of the loop of [_load_csv]. *)
Definition load_row (temp_products : TempProducts) (row : Row) : result TempProducts :=
  title ← dict_getitem row "item_title";
  if negb (truthy (dict_get row "retail_price"))
     || bool_decide (dict_get row "retail_price" = PyStr "0.01")
  then mret temp_products
  else
    p ← read_price row;
    match p with
    | None => mret temp_products
    | Some price =>
        update ← should_update row title temp_products;
        if (update : bool)
        then mret (temp_store title
                     (mkEntry price (dict_get_default row "inserted_at" default_date))
                     temp_products)
        else mret temp_products
    end.

Fixpoint load_rows (rows : list Row) (temp_products : TempProducts) : result TempProducts :=
  match rows with
  | [] => mret temp_products
  | row :: rest =>
      temp_products' ← load_row temp_products row;
      load_rows rest temp_products'
  end.

(** [TJPricesFetcher._load_csv] on the rows the reader yields. *)
Definition _load_csv (rows : list Row) : outcome (list (Product pyval)) :=
  match load_rows rows [] with
  | Ok temp_products =>
      Return (List.map (fun nd => mkProduct (fst nd) (e_price (snd nd)) "TJ"
                                            PyNone PyNone PyNone PyNone)
                       temp_products)
  | Raise _ => SysExit 1
  end.

End Loading.

Section Matching.
Variable fuzz_ratio : string -> string -> Z.

(** [TJPricesFetcher.find_matches] *)
Definition find_matches (products : Catalog) (query : string) (threshold : Z) : Catalog :=
  ranked_matches fuzz_ratio query products threshold.

End Matching.
End TJPricesFetcher.

Section Comparer.
Variable fuzz_ratio : string -> string -> Z.
(** The answer to the [inquirer] question: one of the choices, or nothing. *)
Variable prompt : string -> string -> Catalog -> option (Product string).

(** [PriceComparer._select_product] *)
Definition _select_product (query : string) (matches : Catalog) (store : string)
  : option (Product string) :=
  match matches with
  | [] => None
  | [p] => Some p
  | _ => prompt store query (firstn 10 matches)
  end.

(** One turn of the loop of [compare_items]; [None] is [continue]. *)
Definition compare_item (tj_products wf_products : Catalog) (item : string)
  : option (option (Product string) * option (Product string)) :=
  let item := strip item in
  if bool_decide (item = "") then None
  else
    Some (_select_product item (TJPricesFetcher.find_matches fuzz_ratio tj_products item 65)
                          "Trader Joe's",
          _select_product item (WFPricesFetcher.find_matches fuzz_ratio wf_products item 65)
                          "Whole Foods").

(** [PriceComparer.compare_items] *)
Definition compare_items (tj_products wf_products : Catalog) (items : list string)
  : PriceComparison string :=
  summarize (omap (compare_item tj_products wf_products) items).

End Comparer.
End PriceComp2.

(* ===================================================================== *)
(** * A reading of [thefuzz.fuzz.ratio] *)
(* ===================================================================== *)

(** The matcher above takes the ratio as a parameter, and the general
    properties below hold whatever it computes.  The worked examples use
    this reading of the library: twice the number of matched characters over
    the total length, as a rounded percentage. *)

(** The length of a longest common subsequence. *)
Fixpoint lcs_row (a : ascii) (b : list ascii) (prev : list nat) (diag left : nat)
  : list nat :=
  match b, prev with
  | c :: b', up :: prev' =>
      let v := if bool_decide (a = c) then S diag else Nat.max up left in
      v :: lcs_row a b' prev' up v
  | _, _ => []
  end.

Fixpoint lcs_rows (a b : list ascii) (prev : list nat) : list nat :=
  match a with
  | [] => prev
  | x :: a' => lcs_rows a' b (lcs_row x b prev 0%nat 0%nat)
  end.

Definition lcs_length (a b : list ascii) : nat :=
  List.last (lcs_rows a b (List.repeat 0%nat (length b))) 0%nat.

(** Rounding to the nearest integer, ties to even, of [n / d] for [d > 0]. *)
Definition round_half_even (n d : Z) : Z :=
  let q := n / d in
  let r := n mod d in
  if 2 * r <? d then q
  else if d <? 2 * r then q + 1
  else if Z.even q then q else q + 1.

(** [int(round(100 * 2 * M / T))] with [M] the matched characters and [T]
    the total length; two empty strings are a full match. *)
Definition thefuzz_ratio (s1 s2 : string) : Z :=
  let a := list_ascii_of_string s1 in
  let b := list_ascii_of_string s2 in
  let t := Z.of_nat (length a + length b) in
  if t =? 0 then 100
  else round_half_even (200 * Z.of_nat (lcs_length a b)) t.

(* ===================================================================== *)
(** * The display properties of [Product] *)
(* ===================================================================== *)

Definition digit_char (d : Z) : ascii := ascii_of_N (Z.to_N (48 + d)).

Fixpoint decimal_digits (fuel : nat) (n : Z) (acc : string) : string :=
  match fuel with
  | O => acc
  | S fuel' =>
      let acc' := String (digit_char (n mod 10)) acc in
      if n / 10 =? 0 then acc' else decimal_digits fuel' (n / 10) acc'
  end.

(** [str(n)] for [n >= 0]. *)
Definition string_of_Z (n : Z) : string :=
  decimal_digits (S (Z.to_nat (Z.log2 n))) n "".

(** [cents] hundredths written with two decimals. *)
Definition two_decimals (cents : Z) : string :=
  String.append (string_of_Z (cents / 100))
    (String "." (String (digit_char (cents mod 100 / 10))
                        (String (digit_char (cents mod 10)) ""))).

(** [f"{x:.2f}"]: the exact value of [x] rounded to hundredths, ties to
    even. *)
Definition format_2f (x : float) : string :=
  match x with
  | S754_nan => "nan"
  | S754_infinity s => if s then "-inf" else "inf"
  | S754_zero s => if s then "-0.00" else "0.00"
  | S754_finite s m e =>
      let cents :=
        if 0 <=? e then Zpos m * 2 ^ e * 100
        else round_half_even (Zpos m * 100) (2 ^ (- e)) in
      String.append (if s then "-" else "") (two_decimals cents)
  end.

(** [Product.display_price] *)
Definition display_price {N : Type} (self : Product N) : string :=
  match unit self with
  | PyStr (String c u) =>
      String.append "$" (String.append (format_2f (price self))
                                       (String.append "/" (String c u)))
  | _ => String.append "$" (format_2f (price self))
  end.

(** [" ".join(parts)] *)
Fixpoint join_spaces (parts : list string) : string :=
  match parts with
  | [] => ""
  | [p] => p
  | p :: rest => String.append p (String.append " " (join_spaces rest))
  end.

Definition generic_brands : list string := ["PRODUCE"; "MEAT"; "SEAFOOD"].

(** [self.brand and self.brand not in ["PRODUCE", "MEAT", "SEAFOOD"]] *)
Definition shows_brand (b : pyval) : bool :=
  match b with
  | PyStr s => truthy b && negb (bool_decide (s ∈ generic_brands))
  | PyNone => false
  end.

(** [Product.display_name] *)
Definition display_name (self : Product string) : string :=
  join_spaces
    ((match brand self with
      | PyStr b => if shows_brand (brand self) then [b] else []
      | PyNone => []
      end)
     ++ [name self]
     ++ (match size self with
         | PyStr (String c z) => [String.append "(" (String.append (String c z) ")")]
         | _ => []
         end))%list.

(* ===================================================================== *)
(** * The vocabulary of the properties *)
(* ===================================================================== *)

(** [q] occurs in [s] as a contiguous run of characters. *)
Definition Substring (q s : string) : Prop :=
  exists pre post : string, s = String.append pre (String.append q post).


(** Keys never increase along the list. *)
Definition Descending {A : Type} (key : A -> Z) (l : list A) : Prop :=
  StronglySorted (fun a b => key b <= key a) l.

(** The title of the row, lower-cased, holds a word of the allow-list. *)
Definition title_has_keyword (row : Row) : Prop :=
  exists title keyword : string,
    dict_get_default row "item_title" (PyStr "") = PyStr title
    /\ In keyword PriceComp.meaningful_keywords
    /\ Substring keyword (lower title).

(** The row is turned into a product under the store tag ['WF']. *)
Definition accepted_as_wf (row : Row) : Prop :=
  exists p : Product string, PriceComp._parse_row row "WF" = Ok (Some p).

(** The row is turned into a product under the store name [store_name]. *)
Definition accepted_under (store_name : string) (row : Row) : Prop :=
  exists p : Product string, PriceComp._parse_row row store_name = Ok (Some p).

Section RecencyVocabulary.
Import PriceComp2.TJPricesFetcher.
Variable strptime : string -> option datetime.

(** The price of a row that passes the price gate of the loader: its
    [retail_price] is not empty, is not the text ['0.01'], and reads as a
    float. *)
Definition row_price (row : Row) : option float :=
  if negb (truthy (dict_get row "retail_price"))
     || bool_decide (dict_get row "retail_price" = PyStr "0.01")
  then None
  else match read_price row with
       | Ok p => p
       | Raise _ => None
       end.

(** [row.get('inserted_at', '2000-01-01 00:00:00')] *)
Definition row_date (row : Row) : pyval := dict_get_default row "inserted_at" default_date.








End RecencyVocabulary.

(** The dictionary key [_remove_duplicates] files a product under. *)
Definition product_key (p : Product string) : string * float := (name p, price p).

(** Two products are filed under different keys. *)
Definition different_keys (a b : Product string) : Prop :=
  PriceComp.unique_key_eqb (product_key a) (product_key b) = false.

(** The entries of [unique_products] are filed under their own keys. *)
Definition well_keyed (acc : list ((string * float) * Product string)) : Prop :=
  List.Forall (fun e => fst e = product_key (snd e)) acc.

(** The product the Trader Joe's rule makes of a row: the title as it
    stands and the price, when the row has a title and passes the price
    gate. *)
Definition priced_product (row : Row) : option (Product pyval) :=
  match row_price row, row !! "item_title" with
  | Some x, Some t => Some (mkProduct t x "TJ" PyNone PyNone PyNone PyNone)
  | _, _ => None
  end.

(** The title of a row that passes the price gate. *)
Definition priced_title (row : Row) : option pyval :=
  match row_price row, row !! "item_title" with
  | Some _, Some t => Some t
  | _, _ => None
  end.

(** The titles of the priced rows, each at the place of its first
    appearance. *)
Definition first_seen (keys : list pyval) (rows : list Row) : list pyval :=
  fold_left (fun keys row =>
               match priced_title row with
               | Some t => if bool_decide (t ∈ keys) then keys else (keys ++ [t])%list
               | None => keys
               end)
            rows keys.

(** The answer to a question is one of the products shown. *)
Definition answers_from_shown
    (prompt : string -> string -> Catalog -> option (Product string)) : Prop :=
  forall (store query : string) (shown : Catalog) (p : Product string),
    prompt store query shown = Some p -> In p shown.

(** The price written with two decimals reads as a float that is displayed
    as it was written. *)
Definition displays_as_written (cents : Z) : bool :=
  match float_of_string (two_decimals cents) with
  | Some x => String.eqb (format_2f x) (two_decimals cents)
  | None => false
  end.

(** [f] holds of the [n] integers from [c] on. *)
Fixpoint all_from (f : Z -> bool) (n : nat) (c : Z) : bool :=
  match n with
  | O => true
  | S n' => f c && all_from f n' (c + 1)
  end.

(** The entry of [temp_products] a priced row is filed as. *)
Definition priced_entry (row : Row) : option (pyval * PriceComp2.TJPricesFetcher.entry) :=
  match row_price row, row !! "item_title" with
  | Some x, Some t => Some (t, PriceComp2.TJPricesFetcher.mkEntry x (row_date row))
  | _, _ => None
  end.

(** The product of a Whole Foods row at the price [x]. *)
Definition wf_product (row : Row) (nm : pyval) (x : float) : Product pyval :=
  mkProduct nm x "WF" PyNone (dict_get row "uom") (dict_get row "brand") PyNone.

(* ===================================================================== *)
(** * Sample catalogs and rows *)
(* ===================================================================== *)

Definition product_named (nm : string) : Product string :=
  mkProduct nm (float_of_decimal false 199 (-2)) "TJ" PyNone PyNone PyNone PyNone.

Definition organic_whole_milk : Product string := product_named "Organic Whole Milk".
Definition mild : Product string := product_named "Mild".
Definition organic_bananas : Product string := product_named "Organic Bananas".

(** Eleven products whose names all hold the word "beans". *)
Definition eleven_beans : Catalog :=
  List.map product_named
    [ "Black Beans"; "Green Beans"; "Pinto Beans"; "Kidney Beans"; "Refried Beans";
      "Baked Beans"; "Garbanzo Beans"; "Cannellini Beans"; "Lima Beans";
      "Navy Beans"; "Fava Beans" ].

(** Ten named products followed by one whose title was blank. *)
Definition ten_and_a_blank : Catalog :=
  List.map product_named
    [ "Apples"; "Bread"; "Cheese"; "Dates"; "Eggs";
      "Flour"; "Grapes"; "Honey"; "Iced Tea"; "Jam"; "" ].

(** A row of the Trader Joe's export. *)
Definition tj_row (sku_ retail_price item_title inserted_at : pyval) : Row :=
  list_to_map [ ("sku", sku_); ("retail_price", retail_price); ("item_title", item_title);
                ("inserted_at", inserted_at); ("store_code", PyStr "546");
                ("availability", PyStr "1") ].

(** A row of the Whole Foods export. *)
Definition wf_row (name_ regularPrice salePrice incrementalSalePrice : pyval) : Row :=
  list_to_map [ ("name", name_); ("regularPrice", regularPrice); ("salePrice", salePrice);
                ("incrementalSalePrice", incrementalSalePrice);
                ("brand", PyStr "365"); ("uom", PyStr "lb") ].

Definition olive_oil_row : Row :=
  tj_row (PyStr "WF00001") (PyStr "0.01") (PyStr "Organic Extra Virgin Olive Oil")
         (PyStr "2024-03-01 09:30:00").

Definition birthday_card_row : Row :=
  tj_row (PyStr "WF00002") (PyStr "0.01") (PyStr "Birthday Card")
         (PyStr "2024-03-01 09:30:00").

Definition milk_row : Row :=
  tj_row (PyStr "051234") (PyStr "3.99") (PyStr "Whole Milk") (PyStr "2024-01-01 10:00:00").

(** The line [051234,4.99]: the fields after the second are missing. *)
Definition short_row : Row :=
  tj_row (PyStr "051234") (PyStr "4.99") PyNone PyNone.

Definition zero_price_row : Row :=
  tj_row (PyStr "051235") (PyStr "0.00") (PyStr "Bananas") (PyStr "2024-01-01 10:00:00").

Definition padded_placeholder_row : Row :=
  tj_row (PyStr "051236") (PyStr "0.010") (PyStr "Bananas") (PyStr "2024-01-01 10:00:00").

Definition negative_price_row : Row :=
  wf_row (PyStr "Organic Bananas") (PyStr "-1.00") (PyStr "0") (PyStr "0").

(** The birthday card as a row of the Whole Foods export. *)
Definition birthday_card_wf_row : Row :=
  wf_row (PyStr "Birthday Card") (PyStr "0.01") (PyStr "0") (PyStr "0").


(** The user takes the first product shown. *)
Definition first_shown (store query : string) (shown : Catalog) : option (Product string) :=
  List.head shown.

(** Three priced rows of one name, the last two with the same time, and a
    row of a table that has no [inserted_at] column. *)
Definition milk_history : list Row :=
  [ tj_row (PyStr "051234") (PyStr "3.99") (PyStr "Whole Milk") (PyStr "2024-01-01 10:00:00");
    tj_row (PyStr "051234") (PyStr "4.19") (PyStr "Whole Milk") (PyStr "2024-02-01 10:00:00");
    tj_row (PyStr "051234") (PyStr "4.29") (PyStr "Whole Milk") (PyStr "2024-02-01 10:00:00");
    tj_row (PyStr "051299") (PyStr "0.01") (PyStr "Gift Card") (PyStr "2024-02-01 10:00:00");
    delete "inserted_at" (tj_row (PyStr "051240") (PyStr "1.29") (PyStr "Eggs") PyNone) ].

(** Rows of three different names, two of them with timestamps that do not
    read as times. *)
Definition unique_names_rows : list Row :=
  [ tj_row (PyStr "051234") (PyStr "3.99") (PyStr "Whole Milk") (PyStr "yesterday");
    tj_row (PyStr "051240") (PyStr "1.29") (PyStr "Eggs") (PyStr "");
    tj_row (PyStr "051299") (PyStr "0.01") (PyStr "Gift Card") (PyStr "2024-02-01 10:00:00") ].

(* ===================================================================== *)
(** * Facts about strings *)
(* ===================================================================== *)

Lemma startswith_append (p post : string) : startswith p (String.append p post) = true.
Proof.
  induction p as [|a p IH]; simpl; [reflexivity|].
  destruct (ascii_dec a a); [exact IH | congruence].
Qed.

Lemma startswith_inv (p s : string) :
  startswith p s = true -> exists post, s = String.append p post.
Proof.
  revert s; induction p as [|a p IH]; intros s H.
  - exists s; reflexivity.
  - destruct s as [|b s]; simpl in H; [discriminate|].
    destruct (ascii_dec a b) as [->|]; [|discriminate].
    destruct (IH _ H) as [post ->]. exists post; reflexivity.
Qed.

Lemma str_in_startswith (q s : string) : startswith q s = true -> str_in q s = true.
Proof. destruct s; simpl; intros ->; reflexivity. Qed.

Lemma str_in_spec (q s : string) : str_in q s = true <-> Substring q s.
Proof.
  split.
  - induction s as [|c s IH]; simpl; intros H.
    + rewrite orb_false_r in H. destruct (startswith_inv _ _ H) as [post ->].
      exists EmptyString, post; reflexivity.
    + apply orb_true_iff in H as [H|H].
      * destruct (startswith_inv _ _ H) as [post ->].
        exists EmptyString, post; reflexivity.
      * destruct (IH H) as (pre & post & ->).
        exists (String c pre), post; reflexivity.
  - intros (pre & post & ->). induction pre as [|c pre IH].
    + change (str_in q (String.append q post) = true).
      apply str_in_startswith, startswith_append.
    + change (str_in q (String c (String.append pre (String.append q post))) = true).
      simpl. rewrite IH. apply orb_true_r.
Qed.

Lemma str_in_empty (s : string) : str_in "" s = true.
Proof. destruct s; reflexivity. Qed.

(* ===================================================================== *)
(** * Facts about the stable descending sort *)
(* ===================================================================== *)

Section SortedFacts.
Context {A : Type} (key : A -> Z).

Lemma insert_desc_perm (x : A) (l : list A) : Permutation (x :: l) (insert_desc key x l).
Proof.
  induction l as [|y l IH]; simpl; [reflexivity|].
  destruct (key x <? key y); [|reflexivity].
  rewrite perm_swap. apply perm_skip, IH.
Qed.

Lemma sorted_desc_perm (l : list A) : Permutation l (sorted_desc key l).
Proof.
  induction l as [|x l IH]; simpl; [reflexivity|].
  rewrite <- insert_desc_perm. apply perm_skip, IH.
Qed.

Lemma sorted_desc_length (l : list A) : length (sorted_desc key l) = length l.
Proof. symmetry. apply Permutation_length, sorted_desc_perm. Qed.

Lemma sorted_desc_In (x : A) (l : list A) : In x (sorted_desc key l) <-> In x l.
Proof.
  split; apply Permutation_in; [symmetry|]; apply sorted_desc_perm.
Qed.

Lemma insert_desc_descending (x : A) (l : list A) :
  Descending key l -> Descending key (insert_desc key x l).
Proof.
  unfold Descending. induction l as [|y l IH]; simpl; intros H.
  - constructor; constructor.
  - apply StronglySorted_inv in H as [Hl Hy].
    destruct (key x <? key y) eqn:E.
    + apply Z.ltb_lt in E. constructor; [apply IH, Hl|].
      rewrite List.Forall_forall in *.
      intros z Hz.
      apply (Permutation_in _ (Permutation_sym (insert_desc_perm x l))) in Hz.
      destruct Hz as [<-|Hz]; [lia|]. apply Hy, Hz.
    + apply Z.ltb_ge in E. constructor.
      * constructor; assumption.
      * constructor; [exact E|].
        rewrite List.Forall_forall in *. intros z Hz. specialize (Hy z Hz). lia.
Qed.

Lemma sorted_desc_descending (l : list A) : Descending key (sorted_desc key l).
Proof.
  induction l as [|x l IH]; simpl; [constructor|].
  apply insert_desc_descending, IH.
Qed.

(** Stability: the elements of one key keep the order they came in. *)
Lemma insert_desc_stable (k : Z) (x : A) (l : list A) :
  List.filter (fun a => key a =? k) (insert_desc key x l)
  = List.filter (fun a => key a =? k) (x :: l).
Proof.
  induction l as [|y l IH]; [reflexivity|].
  simpl insert_desc. destruct (key x <? key y) eqn:E; [|reflexivity].
  apply Z.ltb_lt in E. simpl in *. rewrite IH.
  destruct (key x =? k) eqn:Ex, (key y =? k) eqn:Ey; try reflexivity.
  apply Z.eqb_eq in Ex, Ey. lia.
Qed.

Lemma sorted_desc_stable (k : Z) (l : list A) :
  List.filter (fun a => key a =? k) (sorted_desc key l)
  = List.filter (fun a => key a =? k) l.
Proof.
  induction l as [|x l IH]; [reflexivity|].
  simpl sorted_desc. rewrite insert_desc_stable. simpl. rewrite IH. reflexivity.
Qed.

(** A list whose keys are all equal is left as it is. *)
Lemma sorted_desc_same_key (l : list A) :
  (forall x y, In x l -> In y l -> key x = key y) -> sorted_desc key l = l.
Proof.
  induction l as [|x l IH]; intros H; [reflexivity|].
  simpl. rewrite IH by (intros; apply H; right; assumption).
  destruct l as [|y l]; [reflexivity|]. simpl.
  rewrite (H x y) by (simpl; auto). rewrite Z.ltb_irrefl. reflexivity.
Qed.

End SortedFacts.

(* ===================================================================== *)
(** * Facts about the match ranking *)
(* ===================================================================== *)

Lemma firstn_In_incl {A : Type} (n : nat) (l : list A) (x : A) :
  In x (firstn n l) -> In x l.
Proof.
  revert l; induction n as [|n IH]; intros [|y l]; simpl; try tauto.
  intros [->|H]; [left; reflexivity | right; apply IH, H].
Qed.

Lemma firstn_length_bound {A : Type} (n : nat) (l : list A) :
  (length (firstn n l) <= n)%nat.
Proof.
  revert l; induction n as [|n IH]; intros [|y l]; simpl; try lia.
  specialize (IH l). lia.
Qed.


Lemma firstn_descending {A : Type} (key : A -> Z) (n : nat) (l : list A) :
  Descending key l -> Descending key (firstn n l).
Proof.
  unfold Descending. revert l; induction n as [|n IH]; intros [|y l] H; simpl;
    try constructor.
  - apply StronglySorted_inv in H as [Hl _]. apply IH, Hl.
  - apply StronglySorted_inv in H as [_ Hy].
    rewrite List.Forall_forall in *. intros z Hz. apply Hy, (firstn_In_incl n), Hz.
Qed.

Section RankingFacts.
Variable fuzz_ratio : string -> string -> Z.

Lemma threshold_matches_In (query : string) (products : Catalog) (threshold : Z)
    (p : Product string) :
  In p (threshold_matches fuzz_ratio query products threshold)
  <-> In p products /\ threshold <= assigned_ratio fuzz_ratio query p.
Proof.
  unfold threshold_matches. rewrite filter_In, Z.leb_le. reflexivity.
Qed.

Lemma ranked_matches_In (query : string) (products : Catalog) (threshold : Z)
    (p : Product string) :
  In p (ranked_matches fuzz_ratio query products threshold)
  <-> In p products /\ threshold <= assigned_ratio fuzz_ratio (lower query) p.
Proof.
  unfold ranked_matches. rewrite sorted_desc_In. apply threshold_matches_In.
Qed.


Lemma threshold_matches_all (query : string) (products : Catalog) (threshold : Z) :
  (forall p, In p products -> threshold <= assigned_ratio fuzz_ratio query p) ->
  threshold_matches fuzz_ratio query products threshold = products.
Proof.
  unfold threshold_matches. induction products as [|p ps IH]; intros H; [reflexivity|].
  simpl. assert (E : (threshold <=? assigned_ratio fuzz_ratio query p) = true).
  { apply Z.leb_le, H. left; reflexivity. }
  rewrite E, IH; [reflexivity|]. intros q Hq. apply H. right; exact Hq.
Qed.

(** The choices of [_select_product] are the first ten matches. *)
Lemma select_product_top10 (prompt : string -> string -> Catalog -> option (Product string))
    (query store : string) (matches : Catalog) :
  PriceComp2._select_product prompt query matches store
  = PriceComp2._select_product prompt query (firstn 10 matches) store.
Proof.
  destruct matches as [|a [|b l]]; try reflexivity.
  unfold PriceComp2._select_product.
  change (firstn 10 (a :: b :: l)) with (a :: b :: firstn 8 l).
  cbv beta iota.
  change (firstn 10 (a :: b :: firstn 8 l)) with (a :: b :: firstn 8 (firstn 8 l)).
  rewrite firstn_firstn. reflexivity.
Qed.

End RankingFacts.

(* ===================================================================== *)
(** * The match ranking: threshold, cap, shortcut and order *)
(* ===================================================================== *)

Section RankingClaims.
Variable fuzz_ratio : string -> string -> Z.

(** Claim C4, in the form that holds of the code. [_find_matches] of
    price-comp.py and price_compare.py returns at most ten products, each of
    the catalog and each with an assigned score (100 for a contained query,
    the fuzzy ratio otherwise) of at least the threshold. [find_matches] of
    price_comp2.py returns every product of the catalog whose assigned score
    reaches the threshold, without a cap: the cut to ten is made by
    [_select_product], whose answer depends on the first ten matches only. *)
Theorem find_matches_threshold_and_cap (query : string) (products : Catalog) (threshold : Z) :
  (length (PriceComp._find_matches fuzz_ratio query products threshold) <= 10)%nat
  /\ (forall p, In p (PriceComp._find_matches fuzz_ratio query products threshold) ->
        In p products /\ threshold <= assigned_ratio fuzz_ratio (lower query) p)
  /\ (forall p, In p (PriceComp2.WFPricesFetcher.find_matches fuzz_ratio products query threshold)
        <-> In p products /\ threshold <= assigned_ratio fuzz_ratio (lower query) p)
  /\ length (PriceComp2.WFPricesFetcher.find_matches fuzz_ratio products query threshold)
     = length (threshold_matches fuzz_ratio (lower query) products threshold)
  /\ (forall prompt store,
        PriceComp2._select_product prompt query
          (PriceComp2.WFPricesFetcher.find_matches fuzz_ratio products query threshold) store
        = PriceComp2._select_product prompt query
            (firstn 10 (PriceComp2.WFPricesFetcher.find_matches fuzz_ratio products query threshold))
            store).
Proof.
  unfold PriceComp._find_matches, PriceComp2.WFPricesFetcher.find_matches.
  split; [apply firstn_length_bound|].
  split; [intros p Hp; apply ranked_matches_In, (firstn_In_incl 10), Hp|].
  split; [intros p; apply ranked_matches_In|].
  split; [apply sorted_desc_length|].
  intros prompt store. apply select_product_top10.
Qed.


(** Claim C6, in the form that holds of the code. The returned list is the
    list of matches, taken in catalog order, sorted stably by decreasing raw
    [fuzz.ratio] of the lower-cased query and the lower-cased name, and cut
    to its first ten elements in price-comp.py and price_compare.py. The 100
    of the containment shortcut admits a product to the matches and plays no
    part in the order. *)
Theorem find_matches_order (query : string) (products : Catalog) (threshold : Z) :
  let matches := threshold_matches fuzz_ratio (lower query) products threshold in
  let key := sort_key fuzz_ratio (lower query) in
  let ranked := PriceComp2.WFPricesFetcher.find_matches fuzz_ratio products query threshold in
  Permutation matches ranked
  /\ Descending key ranked
  /\ (forall k, List.filter (fun p => key p =? k) ranked
                = List.filter (fun p => key p =? k) matches)
  /\ PriceComp._find_matches fuzz_ratio query products threshold = firstn 10 ranked
  /\ Descending key (PriceComp._find_matches fuzz_ratio query products threshold).
Proof.
  cbv zeta. unfold PriceComp._find_matches, PriceComp2.WFPricesFetcher.find_matches,
    ranked_matches.
  split; [apply sorted_desc_perm|].
  split; [apply sorted_desc_descending|].
  split; [intros k; apply sorted_desc_stable|].
  split; [reflexivity|].
  apply firstn_descending, sorted_desc_descending.
Qed.

(** Claim C10, in the form that holds of the code. For the empty query and a
    threshold of at most 100 every product is assigned 100 and is a match.
    [_find_matches] returns the first ten of the catalog sorted stably by
    decreasing [fuzz.ratio("", name.lower())], which are the first [min 10
    n] products of the catalog when those ratios are all equal;
    [find_matches] of price_comp2.py returns the whole catalog in that
    sorted order. *)
Theorem empty_query_matches_everything (products : Catalog) (threshold : Z) :
  threshold <= 100 ->
  let key := sort_key fuzz_ratio "" in
  (forall p, In p products -> assigned_ratio fuzz_ratio "" p = 100)
  /\ threshold_matches fuzz_ratio "" products threshold = products
  /\ PriceComp._find_matches fuzz_ratio "" products threshold
     = firstn 10 (sorted_desc key products)
  /\ length (PriceComp._find_matches fuzz_ratio "" products threshold)
     = Nat.min 10 (length products)
  /\ ((forall p q, In p products -> In q products -> key p = key q) ->
      PriceComp._find_matches fuzz_ratio "" products threshold = firstn 10 products)
  /\ PriceComp2.WFPricesFetcher.find_matches fuzz_ratio products "" threshold
     = sorted_desc key products
  /\ length (PriceComp2.WFPricesFetcher.find_matches fuzz_ratio products "" threshold)
     = length products.
Proof.
  intros Ht. cbv zeta.
  assert (Hall : forall p, In p products -> assigned_ratio fuzz_ratio "" p = 100).
  { intros p _. unfold assigned_ratio. rewrite str_in_empty. reflexivity. }
  assert (Hm : threshold_matches fuzz_ratio "" products threshold = products).
  { apply threshold_matches_all. intros p Hp. rewrite (Hall p Hp). exact Ht. }
  unfold PriceComp._find_matches, PriceComp2.WFPricesFetcher.find_matches, ranked_matches.
  change (lower "") with "". rewrite Hm.
  split; [exact Hall|]. split; [reflexivity|]. split; [reflexivity|].
  split; [rewrite length_firstn, sorted_desc_length; reflexivity|].
  split; [intros Hk; rewrite sorted_desc_same_key by exact Hk; reflexivity|].
  split; [reflexivity | apply sorted_desc_length].
Qed.

End RankingClaims.

(** The uncapped [find_matches] of price_comp2.py on eleven products that
    all contain the query. *)
Lemma find_matches_returns_eleven :
  length (PriceComp2.WFPricesFetcher.find_matches thefuzz_ratio eleven_beans "Beans" 65)
  = 11%nat.
Proof. vm_compute. reflexivity. Qed.


(** A product that contains the query (assigned 100) is ranked below a
    product that does not (assigned 75). *)
Lemma contained_match_ranked_below_fuzzy_match :
  PriceComp._find_matches thefuzz_ratio "milk" [organic_whole_milk; mild] 65
  = [mild; organic_whole_milk]
  /\ assigned_ratio thefuzz_ratio "milk" mild = 75
  /\ assigned_ratio thefuzz_ratio "milk" organic_whole_milk = 100
  /\ sort_key thefuzz_ratio "milk" organic_whole_milk = 36.
Proof. vm_compute. repeat split; reflexivity. Qed.

(** The empty query: the uncapped [find_matches] returns eleven products,
    and [_find_matches] puts the blank-named eleventh product first and
    leaves the tenth out. *)
Lemma empty_query_not_first_ten :
  length (PriceComp2.WFPricesFetcher.find_matches thefuzz_ratio eleven_beans "" 65) = 11%nat
  /\ List.map name (PriceComp._find_matches thefuzz_ratio "" ten_and_a_blank 65)
     = [ ""; "Apples"; "Bread"; "Cheese"; "Dates"; "Eggs";
         "Flour"; "Grapes"; "Honey"; "Iced Tea" ]
  /\ List.map name (firstn 10 ten_and_a_blank)
     = [ "Apples"; "Bread"; "Cheese"; "Dates"; "Eggs";
         "Flour"; "Grapes"; "Honey"; "Iced Tea"; "Jam" ].
Proof. vm_compute. repeat split; reflexivity. Qed.

Lemma empty_query_matches_everything_witness :
  65 <= 100
  /\ threshold_matches thefuzz_ratio "" ten_and_a_blank 65 = ten_and_a_blank
  /\ PriceComp._find_matches thefuzz_ratio "" ten_and_a_blank 65
     = firstn 10 (sorted_desc (sort_key thefuzz_ratio "") ten_and_a_blank).
Proof.
  assert (H : 65 <= 100) by lia.
  split; [exact H|].
  pose proof (empty_query_matches_everything thefuzz_ratio ten_and_a_blank 65 H) as T.
  cbv zeta in T. split; [apply T | apply T].
Defined.

(* ===================================================================== *)
(** * Facts about float comparisons *)
(* ===================================================================== *)




(* ===================================================================== *)
(** * The totals of a comparison *)
(* ===================================================================== *)




(* ===================================================================== *)
(** * The normalizers *)
(* ===================================================================== *)

Lemma keyword_found_iff (title : string) :
  existsb (fun keyword => str_in keyword title) PriceComp.meaningful_keywords = true
  <-> exists keyword, In keyword PriceComp.meaningful_keywords /\ Substring keyword title.
Proof.
  rewrite existsb_exists. split; intros (k & Hk & H); exists k; split; auto;
    apply str_in_spec; exact H.
Qed.

Lemma parse_row_wf_placeholder (row : Row) (price : float) :
  py_float (dict_get_default row "retail_price" (PyStr "0")) = Ok price ->
  f_eqb price f_0_01 = true ->
  accepted_as_wf row <-> title_has_keyword row.
Proof.
  intros Hprice Heq. unfold accepted_as_wf, title_has_keyword, PriceComp._parse_row.
  rewrite Hprice. cbn [mbind result_bind]. unfold PriceComp.filtered_out.
  rewrite bool_decide_eq_true_2 by reflexivity. rewrite Heq.
  destruct (dict_get_default row "item_title" (PyStr "")) as [|title] eqn:Et.
  - cbn. split; [intros (p & H); discriminate | intros (t & k & H & _); discriminate].
  - cbn [py_lower mbind result_bind mret result_ret].
    destruct (existsb _ _) eqn:Ek; cbn.
    + split; [intros _ | intros _; eexists; reflexivity].
      apply keyword_found_iff in Ek as (k & Hk & Hs).
      exists title, k. auto.
    + split; [intros (p & H); discriminate|].
      intros (t & k & Ht & Hk & Hs). injection Ht as <-.
      assert (E : existsb (fun keyword => str_in keyword (lower title))
                    PriceComp.meaningful_keywords = true)
        by (apply keyword_found_iff; exists k; split; assumption).
      congruence.
Qed.

Lemma parse_row_unfiltered_placeholder
    (row : Row) (store_name : string) (price : float) (title : string) :
  store_name <> "WF" -> store_name <> "TJ" ->
  py_float (dict_get_default row "retail_price" (PyStr "0")) = Ok price ->
  dict_get_default row "item_title" (PyStr "") = PyStr title ->
  accepted_under store_name row.
Proof.
  intros Hwf Htj Hprice Ht. unfold accepted_under, PriceComp._parse_row, PriceComp.filtered_out.
  rewrite Hprice, Ht. cbn [mbind result_bind].
  rewrite (bool_decide_eq_false_2 _ Hwf), (bool_decide_eq_false_2 _ Htj).
  eexists. reflexivity.
Qed.

(** Claim C2, evaluated where the code departs from it.  [_parse_row] of
    price-comp.py consults the allow-list under the store tag ['WF'] alone:
    there a row priced 0.01 becomes a product if and only if its lower-cased
    title holds a word of the list, and the row titled "Birthday Card" is
    dropped.  [main] loads the Whole Foods file under the name
    ["Whole Foods"], and under that name, as under every name other than
    ['WF'] and ['TJ'], a row priced 0.01 becomes a product whatever its
    title: the birthday card, whose title holds no word of the list, is
    accepted beside the olive oil.  The Whole Foods normalizers of
    price_compare.py and price_comp2.py, which pick the price among three
    fields, have no allow-list and accept the birthday card too. *)
Theorem placeholder_rule_is_not_applied :
  (forall (row : Row) (price : float),
      py_float (dict_get_default row "retail_price" (PyStr "0")) = Ok price ->
      f_eqb price f_0_01 = true ->
      accepted_as_wf row <-> title_has_keyword row)
  /\ (forall (row : Row) (store_name : string) (price : float) (title : string),
        store_name <> "WF" -> store_name <> "TJ" ->
        py_float (dict_get_default row "retail_price" (PyStr "0")) = Ok price ->
        f_eqb price f_0_01 = true ->
        dict_get_default row "item_title" (PyStr "") = PyStr title ->
        accepted_under store_name row)
  /\ ~ title_has_keyword birthday_card_row
  /\ PriceComp._parse_row birthday_card_row "WF" = Ok None
  /\ PriceComp._parse_row birthday_card_row "Whole Foods"
     = Ok (Some (mkProduct "Birthday Card" f_0_01 "Whole Foods"
                           PyNone PyNone PyNone (PyStr "WF00002")))
  /\ PriceComp.load_data [olive_oil_row; birthday_card_row] "Whole Foods"
     = [ mkProduct "Organic Extra Virgin Olive Oil" f_0_01 "Whole Foods"
                   PyNone PyNone PyNone (PyStr "WF00001");
         mkProduct "Birthday Card" f_0_01 "Whole Foods"
                   PyNone PyNone PyNone (PyStr "WF00002") ]
  /\ PriceCompare._parse_row birthday_card_wf_row "WF"
     = Ok (Some (mkProduct (PyStr "Birthday Card") f_0_01 "WF"
                           PyNone (PyStr "lb") (PyStr "365") PyNone))
  /\ PriceComp2.WFPricesFetcher._load_csv [birthday_card_wf_row]
     = Return [ mkProduct (PyStr "Birthday Card") f_0_01 "WF"
                          PyNone (PyStr "lb") (PyStr "365") PyNone ].
Proof.
  assert (Hdropped : PriceComp._parse_row birthday_card_row "WF" = Ok None)
    by (vm_compute; reflexivity).
  split; [exact parse_row_wf_placeholder|].
  split.
  { intros row store_name price title Hwf Htj Hprice _ Ht.
    exact (parse_row_unfiltered_placeholder row store_name price title Hwf Htj Hprice Ht). }
  split.
  { intros Hk.
    assert (Hprice : py_float (dict_get_default birthday_card_row "retail_price" (PyStr "0"))
                     = Ok f_0_01) by (vm_compute; reflexivity).
    apply (parse_row_wf_placeholder birthday_card_row f_0_01 Hprice eq_refl) in Hk.
    destruct Hk as [p Hp]. rewrite Hdropped in Hp. discriminate. }
  split; [exact Hdropped|].
  repeat split; vm_compute; reflexivity.
Qed.

(** ** Prices of the products produced *)

Lemma f_or_truthy_nonzero (price : float) :
  negb (f_truthy price) = false -> f_eqb price f_zero = false.
Proof. unfold f_truthy. destruct (f_eqb price f_zero); simpl; congruence. Qed.

Lemma parse_wf_row_nonzero (row : Row) (p : Product pyval) :
  PriceCompare._parse_wf_row row = Ok (Some p) -> f_eqb (price p) f_zero = false.
Proof.
  unfold PriceCompare._parse_wf_row.
  destruct (py_float_get0 row "regularPrice") as [r|]; [|discriminate].
  destruct (py_float_get0 row "salePrice") as [s|]; [|discriminate].
  destruct (py_float_get0 row "incrementalSalePrice") as [i|]; [|discriminate].
  cbn [mbind result_bind].
  destruct (negb (f_truthy (f_or (f_or i s) r))) eqn:E; [discriminate|].
  destruct (dict_getitem row "name") as [nm|]; [|discriminate].
  cbn. intros [= <-]. apply f_or_truthy_nonzero, E.
Qed.

Lemma wf_load_row_nonzero (row : Row) (p : Product pyval) :
  PriceComp2.WFPricesFetcher.load_row row = Ok (Some p) -> f_eqb (price p) f_zero = false.
Proof.
  unfold PriceComp2.WFPricesFetcher.load_row.
  destruct (py_float_get0 row "regularPrice") as [r|e1];
    [|cbn; destruct (bool_decide _); discriminate].
  destruct (py_float_get0 row "salePrice") as [s|e2];
    [|cbn; destruct (bool_decide _); discriminate].
  destruct (py_float_get0 row "incrementalSalePrice") as [i|e3];
    [|cbn; destruct (bool_decide _); discriminate].
  cbn [mbind result_bind].
  destruct (negb (f_truthy (f_or (f_or i s) r))) eqn:E; [discriminate|].
  destruct (dict_getitem row "name") as [nm|e4];
    [|cbn; destruct (bool_decide _); discriminate].
  cbn. intros [= <-]. apply f_or_truthy_nonzero, E.
Qed.

Lemma parse_row_tj_above_floor (row : Row) (q : Product string) :
  PriceComp._parse_row row "TJ" = Ok (Some q) -> f_leb (price q) f_0_01 = false.
Proof.
  unfold PriceComp._parse_row.
  destruct (py_float _) as [x|e]; [|cbn; destruct (bool_decide _); discriminate].
  cbn [mbind result_bind]. unfold PriceComp.filtered_out.
  rewrite bool_decide_eq_false_2 by discriminate.
  rewrite bool_decide_eq_true_2 by reflexivity.
  cbn [mbind result_bind mret result_ret].
  destruct (f_leb x f_0_01) eqn:E; [discriminate|].
  destruct (py_strip _) as [nm|e]; [|cbn; destruct (bool_decide _); discriminate].
  cbn. intros [= <-]. exact E.
Qed.

Lemma try_except_some {A : Type} (body : result (option A)) (handled : list exn) (a : A) :
  try_except body handled (mret None) = Ok (Some a) -> body = Ok (Some a).
Proof.
  destruct body as [o|e]; simpl; [congruence|].
  destruct (bool_decide _); discriminate.
Qed.

Lemma compare_parse_rows_nonzero (rows : list Row) (products : list (Product pyval)) :
  PriceCompare.parse_rows rows "WF" = Ok products ->
  forall p, In p products -> f_eqb (price p) f_zero = false.
Proof.
  revert products; induction rows as [|row rows IH]; intros products; simpl.
  - intros [= <-] p [].
  - destruct (PriceCompare._parse_row row "WF") as [o|] eqn:Er; [|discriminate].
    destruct (PriceCompare.parse_rows rows "WF") as [ps|]; [|discriminate].
    cbn. intros [= <-] p Hp.
    destruct o as [p0|]; [|exact (IH ps eq_refl p Hp)].
    destruct Hp as [<-|Hp]; [|exact (IH ps eq_refl p Hp)].
    unfold PriceCompare._parse_row in Er. apply try_except_some in Er.
    rewrite bool_decide_eq_true_2 in Er by reflexivity.
    exact (parse_wf_row_nonzero _ _ Er).
Qed.

Lemma wf_load_rows_nonzero (rows : list Row) (acc products : list (Product pyval)) :
  PriceComp2.WFPricesFetcher.load_rows rows acc = Ok products ->
  (forall p, In p acc -> f_eqb (price p) f_zero = false) ->
  forall p, In p products -> f_eqb (price p) f_zero = false.
Proof.
  revert acc products; induction rows as [|row rows IH]; intros acc products; simpl.
  - intros [= <-] H. exact H.
  - destruct (PriceComp2.WFPricesFetcher.load_row row) as [o|] eqn:Er; [|discriminate].
    cbn [mbind result_bind]. intros Hl Hacc. apply (IH _ _ Hl).
    destruct o as [p0|]; [|exact Hacc].
    intros p Hp. apply in_app_or in Hp as [Hp|[<-|[]]]; [apply Hacc, Hp|].
    exact (wf_load_row_nonzero _ _ Er).
Qed.

Lemma comp_parse_rows_above_floor (rows : list Row) (products : list (Product string)) :
  PriceComp.parse_rows rows "TJ" = Ok products ->
  forall q, In q products -> f_leb (price q) f_0_01 = false.
Proof.
  revert products; induction rows as [|row rows IH]; intros products; simpl.
  - intros [= <-] q [].
  - destruct (PriceComp._parse_row row "TJ") as [o|] eqn:Er; [|discriminate].
    destruct (PriceComp.parse_rows rows "TJ") as [ps|]; [|discriminate].
    cbn. intros [= <-] q Hq.
    destruct o as [q0|]; [|exact (IH ps eq_refl q Hq)].
    destruct Hq as [<-|Hq]; [|exact (IH ps eq_refl q Hq)].
    exact (parse_row_tj_above_floor _ _ Er).
Qed.

Lemma remove_duplicates_loop_In (products : list (Product string))
    (acc : list ((string * float) * Product string)) (e : (string * float) * Product string) :
  In e (PriceComp.remove_duplicates_loop products acc) ->
  In e acc \/ In (snd e) products.
Proof.
  revert acc; induction products as [|p ps IH]; intros acc; simpl; [auto|].
  destruct (existsb _ acc); intros H; apply IH in H.
  - tauto.
  - destruct H as [H|H]; [|tauto].
    apply in_app_or in H as [H|[<-|[]]]; [tauto|]. right; left; reflexivity.
Qed.

Lemma remove_duplicates_In (products : list (Product string)) (p : Product string) :
  In p (PriceComp._remove_duplicates products) -> In p products.
Proof.
  unfold PriceComp._remove_duplicates. intros H.
  apply in_map_iff in H as (e & <- & He).
  apply remove_duplicates_loop_In in He as [[]|He]. exact He.
Qed.

(** Claim C8, in the form that holds of the code. Every product of a Whole
    Foods catalog loaded by price_compare.py or price_comp2.py has a price
    different from zero: a row is dropped when the price selected for it is
    zero, and a negative price is kept. Every product price-comp.py loads
    under the store tag 'TJ' has a price that is not [<= 0.01]. *)
Theorem loaded_prices_pass_the_price_gate (rows : list Row) :
  (forall products, PriceCompare.load_data rows "WF" = Return products ->
     forall p, In p products -> f_eqb (price p) f_zero = false)
  /\ (forall products, PriceComp2.WFPricesFetcher._load_csv rows = Return products ->
        forall p, In p products -> f_eqb (price p) f_zero = false)
  /\ (forall q, In q (PriceComp.load_data rows "TJ") -> f_leb (price q) f_0_01 = false).
Proof.
  split; [|split].
  - unfold PriceCompare.load_data. intros products.
    destruct (PriceCompare.parse_rows rows "WF") as [ps|] eqn:E; [|discriminate].
    intros [= <-]. exact (compare_parse_rows_nonzero rows ps E).
  - unfold PriceComp2.WFPricesFetcher._load_csv. intros products.
    destruct (PriceComp2.WFPricesFetcher.load_rows rows []) as [ps|] eqn:E; [|discriminate].
    intros [= <-]. apply (wf_load_rows_nonzero rows [] ps E). intros p [].
  - unfold PriceComp.load_data. intros q.
    destruct (PriceComp.parse_rows rows "TJ") as [ps|] eqn:E; [|intros []].
    intros H. apply remove_duplicates_In in H.
    exact (comp_parse_rows_above_floor rows ps E q H).
Qed.

(** A Whole Foods row whose only price is [-1.00] becomes a product priced
    [-1.0]. *)
Lemma negative_price_is_kept :
  PriceCompare._parse_wf_row negative_price_row
  = Ok (Some (mkProduct (PyStr "Organic Bananas") (S754_finite true 4503599627370496 (-52))
                        "WF" PyNone (PyStr "lb") (PyStr "365") PyNone))
  /\ float_of_string "-1.00" = Some (S754_finite true 4503599627370496 (-52))
  /\ f_ltb f_zero (S754_finite true 4503599627370496 (-52)) = false
  /\ f_ltb (S754_finite true 4503599627370496 (-52)) f_zero = true
  /\ PriceComp2.WFPricesFetcher._load_csv [negative_price_row]
     = Return [mkProduct (PyStr "Organic Bananas") (S754_finite true 4503599627370496 (-52))
                         "WF" PyNone (PyStr "lb") (PyStr "365") PyNone].
Proof. vm_compute. repeat split; reflexivity. Qed.

Lemma parse_row_tj_rejects_floor (row : Row) (x : float) :
  py_float (dict_get_default row "retail_price" (PyStr "0")) = Ok x ->
  f_leb x f_0_01 = true ->
  PriceComp._parse_row row "TJ" = Ok None.
Proof.
  intros Hx Hle. unfold PriceComp._parse_row. rewrite Hx.
  cbn [mbind result_bind]. unfold PriceComp.filtered_out.
  rewrite bool_decide_eq_false_2 by discriminate.
  rewrite bool_decide_eq_true_2 by reflexivity.
  rewrite Hle. reflexivity.
Qed.

(** Claim C1, evaluated where the code departs from it. [_parse_tj_row] of
    price_compare.py and the Trader Joe's loader of price_comp2.py compare
    the text of [retail_price] with ['0.01']: a row priced [0.00], and a row
    whose price is written [0.010], become products, with prices that are
    [<= 0.01]. [_parse_row] of price-comp.py, which compares the number,
    drops both rows, and every row whose price is [<= 0.01]. *)
Theorem tj_text_comparison_lets_placeholders_through :
  PriceCompare._parse_tj_row zero_price_row
  = Ok (Some (mkProduct (PyStr "Bananas") f_zero "TJ" PyNone PyNone PyNone PyNone))
  /\ PriceCompare._parse_tj_row padded_placeholder_row
     = Ok (Some (mkProduct (PyStr "Bananas") f_0_01 "TJ" PyNone PyNone PyNone PyNone))
  /\ PriceComp2.TJPricesFetcher._load_csv strptime_padded [zero_price_row]
     = Return [mkProduct (PyStr "Bananas") f_zero "TJ" PyNone PyNone PyNone PyNone]
  /\ PriceComp2.TJPricesFetcher._load_csv strptime_padded [padded_placeholder_row]
     = Return [mkProduct (PyStr "Bananas") f_0_01 "TJ" PyNone PyNone PyNone PyNone]
  /\ f_leb f_zero f_0_01 = true
  /\ f_leb f_0_01 f_0_01 = true
  /\ PriceComp._parse_row zero_price_row "TJ" = Ok None
  /\ PriceComp._parse_row padded_placeholder_row "TJ" = Ok None
  /\ (forall (row : Row) (x : float),
        py_float (dict_get_default row "retail_price" (PyStr "0")) = Ok x ->
        f_leb x f_0_01 = true ->
        PriceComp._parse_row row "TJ" = Ok None).
Proof.
  repeat (split; [vm_compute; reflexivity|]).
  exact parse_row_tj_rejects_floor.
Qed.

(** Claim C9, evaluated where the code departs from it. A line with its
    title missing makes [_parse_row] of price-comp.py raise
    [AttributeError], which its [except (ValueError, TypeError)] does not
    catch: [load_data] returns the empty list although the first row is a
    good one. In price_comp2.py a repeated title with an empty timestamp,
    and a row without the key [item_title], end the process; in
    price_compare.py a Whole Foods row whose price is [None] raises
    [TypeError] past [_parse_row]. *)
Theorem bad_row_aborts_the_load :
  PriceComp._parse_row short_row "TJ" = Raise AttributeError
  /\ PriceComp.load_data [milk_row] "TJ"
     = [mkProduct "Whole Milk" (float_of_decimal false 399 (-2)) "TJ"
                  PyNone PyNone PyNone (PyStr "051234")]
  /\ PriceComp.load_data [milk_row; short_row] "TJ" = []
  /\ PriceComp.load_data [milk_row; short_row] "Trader Joe's" = []
  /\ PriceComp2.TJPricesFetcher._load_csv strptime_padded
       [milk_row; tj_row (PyStr "051234") (PyStr "4.19") (PyStr "Whole Milk") (PyStr "")]
     = SysExit 1
  /\ PriceComp2.TJPricesFetcher._load_csv strptime_padded
       [milk_row; delete "item_title" milk_row]
     = SysExit 1
  /\ PriceCompare._parse_row (wf_row (PyStr "Organic Bananas") PyNone PyNone PyNone) "WF"
     = Raise TypeError
  /\ PriceCompare.load_data
       [negative_price_row; wf_row (PyStr "Organic Bananas") PyNone PyNone PyNone] "WF"
     = SysExit 1.
Proof. vm_compute. repeat split; reflexivity. Qed.

(* ===================================================================== *)
(** * The order of timestamps *)
(* ===================================================================== *)


Lemma lex_compare_antisym (a b : list Z) : lex_compare b a = CompOpp (lex_compare a b).
Proof.
  revert b; induction a as [|x a IH]; intros [|y b]; simpl; try reflexivity.
  rewrite (Z.compare_antisym x y). destruct (x ?= y); simpl; auto.
Qed.

Lemma lex_compare_gt_trans (a b c : list Z) :
  lex_compare a b = Gt -> lex_compare c b <> Gt -> lex_compare a c = Gt.
Proof.
  revert b c; induction a as [|x a IH]; intros [|y b] [|z c]; simpl;
    try congruence; try reflexivity.
  destruct (Z.compare_spec x y), (Z.compare_spec z y), (Z.compare_spec x z);
    try subst; try lia; try congruence; try reflexivity.
  apply IH.
Qed.


Lemma dt_gt_asym (a b : datetime) : dt_gt a b = true -> dt_gt b a = false.
Proof.
  unfold dt_gt. rewrite (lex_compare_antisym (dt_fields a) (dt_fields b)).
  destruct (lex_compare (dt_fields a) (dt_fields b)); simpl; congruence.
Qed.

(** [a > b] and not [c > b] give [a > c]. *)
Lemma dt_gt_le_trans (a b c : datetime) :
  dt_gt a b = true -> dt_gt c b = false -> dt_gt a c = true.
Proof.
  unfold dt_gt. intros H1 H2.
  rewrite (lex_compare_gt_trans (dt_fields a) (dt_fields b) (dt_fields c)).
  - reflexivity.
  - destruct (lex_compare (dt_fields a) (dt_fields b)); congruence.
  - destruct (lex_compare (dt_fields c) (dt_fields b)); congruence.
Qed.

Lemma dt_gt_trans (a b c : datetime) :
  dt_gt a b = true -> dt_gt b c = true -> dt_gt a c = true.
Proof.
  intros H1 H2. apply dt_gt_asym in H2. exact (dt_gt_le_trans a b c H1 H2).
Qed.

(* ===================================================================== *)
(** * Facts about [temp_products] *)
(* ===================================================================== *)

Module TempProductsFacts.
Import PriceComp2.TJPricesFetcher.

Lemma temp_lookup_None (t : pyval) (tp : TempProducts) :
  temp_lookup t tp = None -> ~ In t (List.map fst tp).
Proof.
  induction tp as [|[k e] tp IH]; simpl; [tauto|].
  destruct (bool_decide (k = t)) eqn:E; [discriminate|].
  apply bool_decide_eq_false in E. intros H [Hk|Hin]; [congruence | exact (IH H Hin)].
Qed.

Lemma temp_lookup_Some_In (t : pyval) (e : entry) (tp : TempProducts) :
  temp_lookup t tp = Some e -> In (t, e) tp.
Proof.
  induction tp as [|[k e'] tp IH]; simpl; [discriminate|].
  destruct (bool_decide (k = t)) eqn:E.
  - apply bool_decide_eq_true in E as ->. intros [= ->]. left; reflexivity.
  - intros H. right. exact (IH H).
Qed.


Lemma temp_store_fresh (t : pyval) (e : entry) (tp : TempProducts) :
  temp_lookup t tp = None -> temp_store t e tp = (tp ++ [(t, e)])%list.
Proof.
  induction tp as [|[k e'] tp IH]; simpl; [reflexivity|].
  destruct (bool_decide (k = t)); [discriminate|]. intros H. rewrite (IH H). reflexivity.
Qed.

Lemma temp_store_keys (t : pyval) (e e0 : entry) (tp : TempProducts) :
  temp_lookup t tp = Some e0 -> List.map fst (temp_store t e tp) = List.map fst tp.
Proof.
  induction tp as [|[k e'] tp IH]; simpl; [discriminate|].
  destruct (bool_decide (k = t)); [reflexivity|].
  intros H. simpl. rewrite (IH H). reflexivity.
Qed.


End TempProductsFacts.

(* ===================================================================== *)
(** * Recency by name: the Trader Joe's loader of price_comp2.py *)
(* ===================================================================== *)

Section RecencyByName.
Import PriceComp2.TJPricesFetcher TempProductsFacts.
Variable strptime : string -> option datetime.


Lemma read_price_total (row : Row) :
  truthy (dict_get row "retail_price") = true -> exists o, read_price row = Ok o.
Proof.
  unfold read_price, dict_get, dict_getitem.
  destruct (row !! "retail_price") as [[|s]|]; simpl; try discriminate.
  intros _. destruct (float_of_string s); simpl; eexists; reflexivity.
Qed.

Lemma load_row_unfold (temp_products : TempProducts) (row : Row) (t : pyval) :
  row !! "item_title" = Some t ->
  load_row strptime temp_products row
  = match row_price row with
    | None => Ok temp_products
    | Some price =>
        update ← should_update strptime row t temp_products;
        if (update : bool)
        then Ok (temp_store t (mkEntry price (row_date row)) temp_products)
        else Ok temp_products
    end.
Proof.
  intros Et. unfold load_row, row_price, dict_getitem. rewrite Et.
  cbn [mbind result_bind].
  destruct (truthy (dict_get row "retail_price")) eqn:Etr; simpl; [|reflexivity].
  destruct (bool_decide _); [reflexivity|].
  destruct (read_price_total row Etr) as [o ->]. cbn [mbind result_bind].
  destruct o; reflexivity.
Qed.








End RecencyByName.


(** The loader on that history: the price of February, first seen, for the
    milk; the eggs with the default date. *)
Lemma milk_history_loaded :
  PriceComp2.TJPricesFetcher._load_csv strptime_padded milk_history
  = Return [ mkProduct (PyStr "Whole Milk") (float_of_decimal false 419 (-2)) "TJ"
                       PyNone PyNone PyNone PyNone;
             mkProduct (PyStr "Eggs") (float_of_decimal false 129 (-2)) "TJ"
                       PyNone PyNone PyNone PyNone ].
Proof. vm_compute. reflexivity. Qed.

(* ===================================================================== *)
(** * More on strings: trimming and case *)
(* ===================================================================== *)

Lemma lower_ascii_idempotent (c : ascii) : lower_ascii (lower_ascii c) = lower_ascii c.
Proof. destruct c as [[] [] [] [] [] [] [] []]; reflexivity. Qed.

Lemma lower_idempotent (s : string) : lower (lower s) = lower s.
Proof.
  induction s as [|c s IH]; simpl; [reflexivity|].
  rewrite lower_ascii_idempotent, IH. reflexivity.
Qed.

Lemma rstrip_cons_nospace (c : ascii) (s : string) :
  is_space c = false -> rstrip (String c s) = String c (rstrip s).
Proof. intros H. simpl. rewrite H. destruct (rstrip s); reflexivity. Qed.

Lemma rstrip_idempotent (s : string) : rstrip (rstrip s) = rstrip s.
Proof.
  induction s as [|c s IH]; [reflexivity|]. simpl.
  destruct (rstrip s) as [|d r] eqn:E.
  - destruct (is_space c) eqn:Ec; [reflexivity|]. simpl. rewrite Ec. reflexivity.
  - change (rstrip (String c (String d r)) = String c (String d r)).
    simpl rstrip at 1. change (match rstrip r with
                               | "" => if is_space d then "" else String d ""
                               | String a s0 => String d (String a s0)
                               end) with (rstrip (String d r)).
    rewrite IH. reflexivity.
Qed.

Lemma lstrip_head (s : string) :
  lstrip s = "" \/ exists c t, lstrip s = String c t /\ is_space c = false.
Proof.
  induction s as [|c s IH]; simpl; [left; reflexivity|].
  destruct (is_space c) eqn:E; [exact IH|]. right. exists c, s. auto.
Qed.

Lemma strip_idempotent (s : string) : strip (strip s) = strip s.
Proof.
  unfold strip. destruct (lstrip_head s) as [->|(c & t & -> & Hc)]; [reflexivity|].
  rewrite (rstrip_cons_nospace c t Hc). simpl lstrip. rewrite Hc.
  rewrite (rstrip_cons_nospace c _ Hc), rstrip_idempotent. reflexivity.
Qed.

(* ===================================================================== *)
(** * More on [_parse_row] and [load_data] of price-comp.py *)
(* ===================================================================== *)

Lemma py_float_raises (v : pyval) (e : exn) :
  py_float v = Raise e -> e = ValueError \/ e = TypeError.
Proof.
  destruct v as [|s]; simpl; [intros [= <-]; auto|].
  destruct (float_of_string s); [discriminate | intros [= <-]; auto].
Qed.

Lemma dict_get_default_none (row : Row) (k d : string) :
  dict_get_default row k (PyStr d) = PyNone -> row !! k = Some PyNone.
Proof. unfold dict_get_default. destruct (row !! k) as [v|]; [intros ->; reflexivity | discriminate]. Qed.

(** X1.  [_parse_row] of price-comp.py lets one exception out, and on one
    kind of row only: [AttributeError], when the row holds [None] under
    [item_title] (a line cut short before its title).  On every other row
    it returns, a product or [None]. *)
Theorem parse_row_raises_only_without_title (row : Row) (store : string) :
  (forall e, PriceComp._parse_row row store = Raise e ->
             e = AttributeError /\ row !! "item_title" = Some PyNone)
  /\ (row !! "item_title" <> Some PyNone ->
      exists o, PriceComp._parse_row row store = Ok o).
Proof.
  assert (H : forall e, PriceComp._parse_row row store = Raise e ->
                        e = AttributeError /\ row !! "item_title" = Some PyNone).
  { intros e. unfold PriceComp._parse_row.
    destruct (py_float _) as [x|e0] eqn:Ef.
    - cbn [mbind result_bind]. unfold PriceComp.filtered_out.
      destruct (dict_get_default row "item_title" (PyStr "")) as [|t] eqn:Et.
      + apply dict_get_default_none in Et.
        destruct (bool_decide (store = "WF")), (f_eqb x f_0_01),
          (bool_decide (store = "TJ")), (f_leb x f_0_01); cbn; intros [= <-]; auto.
      + destruct (bool_decide (store = "WF")), (f_eqb x f_0_01),
          (bool_decide (store = "TJ")), (f_leb x f_0_01); cbn -[existsb];
          try discriminate;
          match goal with
          | |- context [existsb ?f ?l] => destruct (existsb f l); cbn; discriminate
          end.
    - destruct (py_float_raises _ _ Ef) as [-> | ->]; cbn; discriminate. }
  split; [exact H|]. intros Hne.
  destruct (PriceComp._parse_row row store) as [o|e] eqn:E; [eexists; reflexivity|].
  destruct (H e eq_refl) as [_ Ht]. contradiction.
Qed.

(** X2.  A product [_parse_row] of price-comp.py returns carries the trimmed
    title of its row (the empty text when the row has no title), the price
    its [retail_price] reads as ([0] when the row has none), the store tag
    it was given and the [sku] of the row as it stands; trimming the name
    again changes nothing. *)
Theorem parse_row_product_fields (row : Row) (tag : string) (p : Product string) :
  PriceComp._parse_row row tag = Ok (Some p) ->
  exists title,
    dict_get_default row "item_title" (PyStr "") = PyStr title
    /\ name p = strip title
    /\ strip (name p) = name p
    /\ py_float (dict_get_default row "retail_price" (PyStr "0")) = Ok (price p)
    /\ store p = tag
    /\ sku p = dict_get row "sku"
    /\ size p = PyNone /\ unit p = PyNone /\ brand p = PyNone.
Proof.
  intros H. apply try_except_some in H.
  destruct (py_float _) as [x|] eqn:Ef; [|discriminate].
  cbn [mbind result_bind] in H.
  destruct (PriceComp.filtered_out row tag x) as [[|]|]; try discriminate.
  cbn [mbind result_bind] in H.
  destruct (dict_get_default row "item_title" (PyStr "")) as [|title]; [discriminate|].
  cbn in H. injection H as <-. exists title. simpl.
  rewrite strip_idempotent. repeat split; reflexivity.
Qed.

Lemma parse_row_product_fields_witness :
  PriceComp._parse_row milk_row "TJ"
  = Ok (Some (mkProduct "Whole Milk" (float_of_decimal false 399 (-2)) "TJ"
                        PyNone PyNone PyNone (PyStr "051234")))
  /\ exists title,
       dict_get_default milk_row "item_title" (PyStr "") = PyStr title
       /\ "Whole Milk" = strip title
       /\ strip "Whole Milk" = "Whole Milk"
       /\ py_float (dict_get_default milk_row "retail_price" (PyStr "0"))
          = Ok (float_of_decimal false 399 (-2))
       /\ "TJ" = "TJ"
       /\ PyStr "051234" = dict_get milk_row "sku"
       /\ PyNone = PyNone /\ PyNone = PyNone /\ PyNone = PyNone.
Proof.
  assert (H : PriceComp._parse_row milk_row "TJ"
              = Ok (Some (mkProduct "Whole Milk" (float_of_decimal false 399 (-2)) "TJ"
                                    PyNone PyNone PyNone (PyStr "051234"))))
    by (vm_compute; reflexivity).
  split; [exact H|].
  exact (parse_row_product_fields milk_row "TJ" _ H).
Defined.

Lemma parse_row_bad_price (row : Row) (store : string) (e : exn) :
  py_float (dict_get_default row "retail_price" (PyStr "0")) = Raise e ->
  PriceComp._parse_row row store = Ok None.
Proof.
  intros H. unfold PriceComp._parse_row. rewrite H.
  destruct (py_float_raises _ _ H) as [-> | ->]; reflexivity.
Qed.

Lemma parse_rows_skip (rows1 rows2 : list Row) (bad : Row) (store : string) :
  PriceComp._parse_row bad store = Ok None ->
  PriceComp.parse_rows (rows1 ++ bad :: rows2) store
  = PriceComp.parse_rows (rows1 ++ rows2) store.
Proof.
  intros H. induction rows1 as [|row rows1 IH]; simpl.
  - rewrite H. cbn [mbind result_bind].
    destruct (PriceComp.parse_rows rows2 store); reflexivity.
  - rewrite IH. reflexivity.
Qed.

(** X3.  A row whose [retail_price] does not read as a number (a malformed
    text, or [None]) is skipped by [load_data] of price-comp.py: the catalog
    is the one loaded from the other rows, whatever stands before and after
    the bad row. *)
Theorem load_data_skips_unreadable_price
    (rows1 rows2 : list Row) (bad : Row) (store : string) (e : exn) :
  py_float (dict_get_default bad "retail_price" (PyStr "0")) = Raise e ->
  PriceComp._parse_row bad store = Ok None
  /\ PriceComp.load_data (rows1 ++ bad :: rows2) store
     = PriceComp.load_data (rows1 ++ rows2) store.
Proof.
  intros H. pose proof (parse_row_bad_price bad store e H) as Hb.
  split; [exact Hb|]. unfold PriceComp.load_data.
  rewrite (parse_rows_skip rows1 rows2 bad store Hb). reflexivity.
Qed.

Lemma load_data_skips_unreadable_price_witness :
  py_float (dict_get_default (tj_row (PyStr "051237") (PyStr "n/a") (PyStr "Eggs") PyNone)
                             "retail_price" (PyStr "0")) = Raise ValueError
  /\ PriceComp._parse_row (tj_row (PyStr "051237") (PyStr "n/a") (PyStr "Eggs") PyNone) "TJ"
     = Ok None
  /\ PriceComp.load_data
       ([milk_row] ++ tj_row (PyStr "051237") (PyStr "n/a") (PyStr "Eggs") PyNone :: [milk_row])
       "TJ"
     = PriceComp.load_data ([milk_row] ++ [milk_row]) "TJ".
Proof.
  assert (H : py_float (dict_get_default
                          (tj_row (PyStr "051237") (PyStr "n/a") (PyStr "Eggs") PyNone)
                          "retail_price" (PyStr "0")) = Raise ValueError)
    by (vm_compute; reflexivity).
  split; [exact H|].
  exact (load_data_skips_unreadable_price [milk_row] [milk_row] _ "TJ" ValueError H).
Defined.

(** X4.  The price filters of [_parse_row] of price-comp.py are tied to the
    store tags ['WF'] and ['TJ'].  Under any other tag (such as the display
    names ["Trader Joe's"] and ["Whole Foods"] that [main] passes to
    [load_data]) every row whose price reads as a number and whose title is
    a text becomes a product, whatever the price: a placeholder [0.01], a
    zero or a negative price is kept. *)
Theorem parse_row_other_store_keeps_every_price
    (row : Row) (store : string) (x : float) (title : string) :
  store <> "WF" -> store <> "TJ" ->
  py_float (dict_get_default row "retail_price" (PyStr "0")) = Ok x ->
  dict_get_default row "item_title" (PyStr "") = PyStr title ->
  PriceComp._parse_row row store
  = Ok (Some (mkProduct (strip title) x store PyNone PyNone PyNone (dict_get row "sku"))).
Proof.
  intros Hwf Htj Hx Ht. unfold PriceComp._parse_row, PriceComp.filtered_out.
  rewrite Hx, Ht. cbn [mbind result_bind].
  rewrite (bool_decide_eq_false_2 _ Hwf), (bool_decide_eq_false_2 _ Htj).
  reflexivity.
Qed.

Lemma parse_row_other_store_keeps_every_price_witness :
  ("Trader Joe's" <> "WF" /\ "Trader Joe's" <> "TJ")
  /\ PriceComp._parse_row birthday_card_row "Trader Joe's"
     = Ok (Some (mkProduct (strip "Birthday Card") f_0_01 "Trader Joe's"
                           PyNone PyNone PyNone (dict_get birthday_card_row "sku"))).
Proof.
  assert (H1 : "Trader Joe's" <> "WF") by discriminate.
  assert (H2 : "Trader Joe's" <> "TJ") by discriminate.
  split; [split; assumption|].
  apply (parse_row_other_store_keeps_every_price birthday_card_row "Trader Joe's"
           f_0_01 "Birthday Card" H1 H2); vm_compute; reflexivity.
Defined.

(* ===================================================================== *)
(** * [_remove_duplicates] of price-comp.py *)
(* ===================================================================== *)

Section RemoveDuplicates.
Import PriceComp.

Lemma FOP_snoc {A : Type} (R : A -> A -> Prop) (l : list A) (x : A) :
  ForallOrdPairs R l -> List.Forall (fun a => R a x) l -> ForallOrdPairs R (l ++ [x]).
Proof.
  induction 1 as [|a l Ha Hl IH]; intros Hx; simpl.
  - constructor; constructor.
  - apply List.Forall_cons_iff in Hx as [Hax Hx]. constructor; [|apply IH, Hx].
    apply List.Forall_app. split; [exact Ha | constructor; [exact Hax | constructor]].
Qed.

Lemma existsb_false_Forall (k : string * float)
    (acc : list ((string * float) * Product string)) :
  existsb (fun e => unique_key_eqb (fst e) k) acc = false ->
  List.Forall (fun e => unique_key_eqb (fst e) k = false) acc.
Proof.
  induction acc as [|e acc IH]; simpl; [constructor|].
  intros H. apply orb_false_iff in H as [He H]. constructor; [exact He | exact (IH H)].
Qed.

Lemma loop_keeps_order (products : list (Product string)) :
  forall acc, exists extra,
    List.map snd (remove_duplicates_loop products acc) = (List.map snd acc ++ extra)%list
    /\ sublist extra products.
Proof.
  induction products as [|p ps IH]; intros acc; simpl.
  - exists []. rewrite app_nil_r. split; [reflexivity | constructor].
  - destruct (existsb _ acc).
    + destruct (IH acc) as (extra & E & Hs). exists extra. split; [exact E|].
      apply sublist_cons, Hs.
    + destruct (IH (acc ++ [((name p, price p), p)])%list) as (extra & E & Hs).
      exists (p :: extra). split; [|apply sublist_skip, Hs].
      rewrite E, List.map_app, <- app_assoc. reflexivity.
Qed.

Lemma loop_distinct (products : list (Product string)) :
  forall acc,
    well_keyed acc ->
    ForallOrdPairs (fun a b => unique_key_eqb (fst a) (fst b) = false) acc ->
    well_keyed (remove_duplicates_loop products acc)
    /\ ForallOrdPairs (fun a b => unique_key_eqb (fst a) (fst b) = false)
                      (remove_duplicates_loop products acc).
Proof.
  induction products as [|p ps IH]; intros acc Hk Hd; simpl; [auto|].
  destruct (existsb _ acc) eqn:E; [apply IH; assumption|].
  apply IH.
  - apply List.Forall_app. split; [exact Hk | constructor; [reflexivity | constructor]].
  - apply FOP_snoc; [exact Hd|]. apply existsb_false_Forall in E. exact E.
Qed.

Lemma loop_prefix (products : list (Product string)) :
  forall acc e, In e acc -> In e (remove_duplicates_loop products acc).
Proof.
  induction products as [|p ps IH]; intros acc e He; simpl; [exact He|].
  destruct (existsb _ acc); apply IH; [exact He | apply in_or_app; left; exact He].
Qed.

Lemma loop_covers (products : list (Product string)) :
  forall acc p, In p products ->
    exists e, In e (remove_duplicates_loop products acc)
              /\ (snd e = p \/ unique_key_eqb (fst e) (product_key p) = true).
Proof.
  induction products as [|q ps IH]; intros acc p []; simpl.
  - subst q. destruct (existsb _ acc) eqn:E.
    + apply existsb_exists in E as (e & He & Hk). exists e.
      split; [apply loop_prefix, He | right; exact Hk].
    + exists ((name p, price p), p). split; [|left; reflexivity].
      apply loop_prefix, in_or_app. right. left. reflexivity.
  - destruct (existsb _ acc); apply IH; assumption.
Qed.

Lemma remove_duplicates_distinct (products : list (Product string)) :
  ForallOrdPairs different_keys (_remove_duplicates products).
Proof.
  unfold _remove_duplicates.
  destruct (loop_distinct products [] (List.Forall_nil _) (FOP_nil _)) as [Hk Hd].
  unfold well_keyed in Hk.
  induction Hd as [|e l He Hl IH]; simpl; [constructor|].
  apply List.Forall_cons_iff in Hk as [Hke Hk]. constructor; [|exact (IH Hk)].
  rewrite List.Forall_forall in *. intros q Hq.
  apply in_map_iff in Hq as (e' & <- & He').
  unfold different_keys. rewrite <- Hke, <- (Hk e' He'). exact (He e' He').
Qed.

(** X5.  [_remove_duplicates] keeps products in the order they came in and
    drops the rest (so it never returns more than it was given); no two
    products it keeps share a name with equal prices; and every product of
    the input is kept itself or is represented by a kept product of the
    same name and an equal price. *)
Theorem remove_duplicates_first_occurrence (products : list (Product string)) :
  sublist (_remove_duplicates products) products
  /\ (length (_remove_duplicates products) <= length products)%nat
  /\ ForallOrdPairs different_keys (_remove_duplicates products)
  /\ (forall p, In p products ->
        exists q, In q (_remove_duplicates products)
                  /\ (q = p \/ unique_key_eqb (product_key q) (product_key p) = true)).
Proof.
  split; [|split; [|split; [apply remove_duplicates_distinct|]]];
    unfold _remove_duplicates.
  - destruct (loop_keeps_order products []) as (extra & E & Hs). simpl in E.
    rewrite E. exact Hs.
  - destruct (loop_keeps_order products []) as (extra & E & Hs). simpl in E.
    rewrite E. apply sublist_length, Hs.
  - destruct (loop_distinct products [] (List.Forall_nil _) (FOP_nil _)) as [Hk _].
    unfold well_keyed in Hk. rewrite List.Forall_forall in Hk.
    intros p Hp. destruct (loop_covers products [] p Hp) as (e & He & Hpe).
    exists (snd e). split; [apply in_map, He|].
    rewrite <- (Hk e He). exact Hpe.
Qed.

Lemma loop_of_distinct (products : list (Product string)) :
  forall acc,
    well_keyed acc ->
    ForallOrdPairs different_keys (List.map snd acc ++ products) ->
    List.map snd (remove_duplicates_loop products acc)
    = (List.map snd acc ++ products)%list.
Proof.
  induction products as [|p ps IH]; intros acc Hk Hd; simpl.
  - rewrite app_nil_r. reflexivity.
  - assert (E : existsb (fun e => unique_key_eqb (fst e) (name p, price p)) acc = false).
    { apply not_true_is_false. intros Ex.
      apply existsb_exists in Ex as (e & He & Hke).
      apply in_split in He as (l1 & l2 & ->).
      rewrite List.map_app in Hd. simpl in Hd. rewrite <- app_assoc in Hd. simpl in Hd.
      assert (Hd' : ForallOrdPairs different_keys (snd e :: List.map snd l2 ++ p :: ps)).
      { clear -Hd. induction (List.map snd l1) as [|a l IH]; [exact Hd|].
        simpl in Hd. inversion Hd; subst. apply IH. assumption. }
      inversion Hd' as [|a l Hall _]; subst.
      rewrite List.Forall_forall in Hall.
      assert (Hp : In p (List.map snd l2 ++ p :: ps)).
      { apply in_or_app. right. left. reflexivity. }
      assert (He : In e (l1 ++ e :: l2)).
      { apply in_or_app. right. left. reflexivity. }
      specialize (Hall p Hp). unfold different_keys in Hall.
      unfold well_keyed in Hk. rewrite List.Forall_forall in Hk.
      rewrite <- (Hk e He) in Hall.
      unfold product_key in Hall. congruence. }
    rewrite E. rewrite IH.
    + rewrite List.map_app, <- app_assoc. reflexivity.
    + apply List.Forall_app. split; [exact Hk | constructor; [reflexivity | constructor]].
    + rewrite List.map_app, <- app_assoc. exact Hd.
Qed.

(** X6.  [_remove_duplicates] leaves a list without duplicates as it is; in
    particular running it twice gives what running it once gives. *)
Theorem remove_duplicates_idempotent (products : list (Product string)) :
  (ForallOrdPairs different_keys products -> _remove_duplicates products = products)
  /\ _remove_duplicates (_remove_duplicates products) = _remove_duplicates products.
Proof.
  assert (H : forall l, ForallOrdPairs different_keys l -> _remove_duplicates l = l).
  { intros l Hl. unfold _remove_duplicates.
    exact (loop_of_distinct l [] (List.Forall_nil _) Hl). }
  split; [apply H|]. apply H, remove_duplicates_distinct.
Qed.

End RemoveDuplicates.

(* ===================================================================== *)
(** * More on the match ranking: thresholds and the case of the query *)
(* ===================================================================== *)

Section SortFilter.
Context {A : Type} (key : A -> Z) (f : A -> bool).

Lemma insert_desc_front (x : A) (l : list A) :
  List.Forall (fun z => key z <= key x) l -> insert_desc key x l = x :: l.
Proof.
  destruct l as [|y l]; [reflexivity|]. intros H.
  apply List.Forall_cons_iff in H as [Hy _]. simpl.
  destruct (key x <? key y) eqn:E; [apply Z.ltb_lt in E; lia | reflexivity].
Qed.

Lemma filter_insert_desc (x : A) (l : list A) :
  Descending key l ->
  List.filter f (insert_desc key x l)
  = if f x then insert_desc key x (List.filter f l) else List.filter f l.
Proof.
  unfold Descending. induction l as [|y l IH]; intros Hs.
  - simpl. destruct (f x); reflexivity.
  - apply StronglySorted_inv in Hs as [Hl Hy]. simpl insert_desc.
    destruct (key x <? key y) eqn:E.
    + simpl. rewrite (IH Hl). destruct (f y), (f x); simpl; try rewrite E; reflexivity.
    + change (List.filter f (x :: y :: l)) with
        (if f x then x :: List.filter f (y :: l) else List.filter f (y :: l)).
      destruct (f x); [|reflexivity]. symmetry. apply insert_desc_front.
      apply Z.ltb_ge in E. rewrite List.Forall_forall in *. intros z Hz.
      apply filter_In in Hz as [[<-|Hz] _]; [exact E|]. specialize (Hy z Hz). lia.
Qed.

(** Sorting what a filter keeps is filtering what the sort returns. *)
Lemma sorted_desc_filter (l : list A) :
  sorted_desc key (List.filter f l) = List.filter f (sorted_desc key l).
Proof.
  induction l as [|x l IH]; [reflexivity|]. simpl sorted_desc.
  rewrite (filter_insert_desc x _ (sorted_desc_descending key l)). simpl.
  destruct (f x); simpl; rewrite IH; reflexivity.
Qed.

Lemma filter_sublist (l : list A) : sublist (List.filter f l) l.
Proof.
  induction l as [|x l IH]; simpl; [constructor|].
  destruct (f x); [apply sublist_skip | apply sublist_cons]; exact IH.
Qed.

End SortFilter.

Lemma filter_filter_stricter {A : Type} (score : A -> Z) (t t' : Z) (l : list A) :
  t <= t' ->
  List.filter (fun a => t' <=? score a) l
  = List.filter (fun a => t' <=? score a) (List.filter (fun a => t <=? score a) l).
Proof.
  intros Ht. induction l as [|x l IH]; [reflexivity|]. simpl.
  destruct (t' <=? score x) eqn:E'.
  - assert (E : (t <=? score x) = true) by (apply Z.leb_le; apply Z.leb_le in E'; lia).
    rewrite E. simpl. rewrite E', IH. reflexivity.
  - destruct (t <=? score x); simpl; [rewrite E'|]; exact IH.
Qed.

(** X7.  Raising the threshold only removes candidates: the list
    [find_matches] of price_comp2.py returns at a threshold [t'] is the list
    it returns at a lower threshold [t] without the products whose assigned
    score is below [t'], the others keeping their order; the capped
    [_find_matches] returns the first ten of that. *)
Theorem raising_threshold_only_removes
    (fuzz_ratio : string -> string -> Z) (products : Catalog) (query : string) (t t' : Z) :
  t <= t' ->
  let above := fun p => t' <=? assigned_ratio fuzz_ratio (lower query) p in
  PriceComp2.WFPricesFetcher.find_matches fuzz_ratio products query t'
  = List.filter above (PriceComp2.WFPricesFetcher.find_matches fuzz_ratio products query t)
  /\ sublist (PriceComp2.WFPricesFetcher.find_matches fuzz_ratio products query t')
             (PriceComp2.WFPricesFetcher.find_matches fuzz_ratio products query t)
  /\ PriceComp._find_matches fuzz_ratio query products t'
     = firstn 10 (List.filter above
                    (PriceComp2.WFPricesFetcher.find_matches fuzz_ratio products query t)).
Proof.
  intros Ht. cbv zeta.
  assert (E : PriceComp2.WFPricesFetcher.find_matches fuzz_ratio products query t'
              = List.filter (fun p => t' <=? assigned_ratio fuzz_ratio (lower query) p)
                  (PriceComp2.WFPricesFetcher.find_matches fuzz_ratio products query t)).
  { unfold PriceComp2.WFPricesFetcher.find_matches, ranked_matches, threshold_matches.
    rewrite <- sorted_desc_filter.
    rewrite <- (filter_filter_stricter (assigned_ratio fuzz_ratio (lower query)) t t'
                  products Ht).
    reflexivity. }
  split; [exact E|]. split.
  - rewrite E. apply filter_sublist.
  - unfold PriceComp._find_matches. fold (PriceComp2.WFPricesFetcher.find_matches
                                            fuzz_ratio products query t').
    rewrite E. reflexivity.
Qed.

Lemma raising_threshold_only_removes_witness :
  65 <= 80
  /\ PriceComp2.WFPricesFetcher.find_matches thefuzz_ratio [organic_whole_milk; mild] "milk" 80
     = List.filter (fun p => 80 <=? assigned_ratio thefuzz_ratio (lower "milk") p)
         (PriceComp2.WFPricesFetcher.find_matches thefuzz_ratio
            [organic_whole_milk; mild] "milk" 65).
Proof.
  assert (H : 65 <= 80) by lia.
  split; [exact H|].
  exact (proj1 (raising_threshold_only_removes thefuzz_ratio [organic_whole_milk; mild]
                  "milk" 65 80 H)).
Defined.

(** X8.  Matching ignores the case of the query: two queries that differ
    only in the case of their letters get the same candidates in the same
    order, from [_find_matches] and from [find_matches]. *)
Theorem matching_ignores_query_case
    (fuzz_ratio : string -> string -> Z) (products : Catalog) (query query' : string)
    (threshold : Z) :
  lower query = lower query' ->
  PriceComp._find_matches fuzz_ratio query products threshold
  = PriceComp._find_matches fuzz_ratio query' products threshold
  /\ PriceComp2.WFPricesFetcher.find_matches fuzz_ratio products query threshold
     = PriceComp2.WFPricesFetcher.find_matches fuzz_ratio products query' threshold
  /\ PriceComp2.TJPricesFetcher.find_matches fuzz_ratio products query threshold
     = PriceComp2.TJPricesFetcher.find_matches fuzz_ratio products (lower query) threshold.
Proof.
  intros H.
  unfold PriceComp._find_matches, PriceComp2.WFPricesFetcher.find_matches,
    PriceComp2.TJPricesFetcher.find_matches, ranked_matches.
  rewrite lower_idempotent, H. repeat split; reflexivity.
Qed.

Lemma matching_ignores_query_case_witness :
  lower "MILK" = lower "Milk"
  /\ PriceComp._find_matches thefuzz_ratio "MILK" [organic_whole_milk; mild] 65
     = PriceComp._find_matches thefuzz_ratio "Milk" [organic_whole_milk; mild] 65.
Proof.
  assert (H : lower "MILK" = lower "Milk") by reflexivity.
  split; [exact H|].
  exact (proj1 (matching_ignores_query_case thefuzz_ratio [organic_whole_milk; mild]
                  "MILK" "Milk" 65 H)).
Defined.

(* ===================================================================== *)
(** * More on the loaders of price_compare.py and price_comp2.py *)
(* ===================================================================== *)

Lemma parse_tj_row_total (row : Row) :
  PriceCompare._parse_tj_row row = Ok (priced_product row).
Proof.
  unfold PriceCompare._parse_tj_row, priced_product, row_price,
    PriceComp2.TJPricesFetcher.read_price, dict_get, dict_getitem.
  destruct (row !! "retail_price") as [[|[|c s]]|] eqn:Ep; try reflexivity.
  cbn [truthy negb orb].
  destruct (bool_decide (PyStr (String c s) = PyStr "0.01")); [reflexivity|].
  cbn [mbind result_bind py_float].
  destruct (float_of_string (String c s)) as [x|]; [|reflexivity].
  cbn [mbind result_bind].
  destruct (row !! "item_title"); reflexivity.
Qed.

Lemma compare_parse_rows_tj (rows : list Row) (tag : string) :
  tag <> "WF" -> PriceCompare.parse_rows rows tag = Ok (omap priced_product rows).
Proof.
  intros Htag. induction rows as [|row rows IH]; [reflexivity|]. simpl.
  unfold PriceCompare._parse_row. rewrite (bool_decide_eq_false_2 _ Htag).
  rewrite parse_tj_row_total. simpl. rewrite IH. simpl.
  destruct (priced_product row); reflexivity.
Qed.

(** X9.  Under any store name other than ['WF'], such as the two display
    names [main] passes, [load_data] of price_compare.py reads every row by
    the Trader Joe's rule and never ends the process: it returns one product
    for each row that passes the price gate and has a title, in row order,
    and tags every product ['TJ'] whatever name it was given. *)
Theorem load_data_other_store_never_exits (rows : list Row) (tag : string) :
  tag <> "WF" ->
  PriceCompare.load_data rows tag = Return (omap priced_product rows)
  /\ (forall row, PriceCompare._parse_row row tag = Ok (priced_product row))
  /\ (forall p, In p (omap priced_product rows) -> store p = "TJ")
  /\ (length (omap priced_product rows) <= length rows)%nat.
Proof.
  intros Htag. split; [|split; [|split]].
  - unfold PriceCompare.load_data. rewrite (compare_parse_rows_tj rows tag Htag). reflexivity.
  - intros row. unfold PriceCompare._parse_row. rewrite (bool_decide_eq_false_2 _ Htag).
    rewrite parse_tj_row_total. reflexivity.
  - intros p Hp. apply list_elem_of_In, list_elem_of_omap in Hp as (row & _ & Hrow).
    unfold priced_product in Hrow.
    destruct (row_price row), (row !! "item_title"); try discriminate.
    injection Hrow as <-. reflexivity.
  - induction rows as [|row rows IH]; [simpl; lia|].
    change (omap priced_product (row :: rows))
      with (match priced_product row with
            | Some y => y :: omap priced_product rows
            | None => omap priced_product rows
            end).
    destruct (priced_product row); simpl; lia.
Qed.

Lemma load_data_other_store_never_exits_witness :
  "Whole Foods" <> "WF"
  /\ PriceCompare.load_data milk_history "Whole Foods"
     = Return (omap priced_product milk_history).
Proof.
  assert (H : "Whole Foods" <> "WF") by discriminate.
  split; [exact H|].
  exact (proj1 (load_data_other_store_never_exits milk_history "Whole Foods" H)).
Defined.

Lemma wf_load_row_is_parse_row (row : Row) :
  PriceComp2.WFPricesFetcher.load_row row = PriceCompare._parse_row row "WF".
Proof. reflexivity. Qed.

Lemma wf_load_rows_acc (rows : list Row) :
  forall acc,
    PriceComp2.WFPricesFetcher.load_rows rows acc
    = (products ← PriceCompare.parse_rows rows "WF"; mret (acc ++ products)%list).
Proof.
  induction rows as [|row rows IH]; intros acc; simpl.
  - rewrite app_nil_r. reflexivity.
  - rewrite wf_load_row_is_parse_row.
    destruct (PriceCompare._parse_row row "WF") as [o|e]; [|reflexivity].
    cbn [mbind result_bind]. rewrite IH.
    destruct (PriceCompare.parse_rows rows "WF") as [ps|e]; [|reflexivity].
    cbn. destruct o; [rewrite <- app_assoc|]; reflexivity.
Qed.

(** X10.  The Whole Foods loaders of price_compare.py and price_comp2.py
    are the same function of the rows: they turn each row into the same
    product or skip it alike, and on every list of rows they return the
    same catalog or both end the process. *)
Theorem wf_loaders_agree (rows : list Row) :
  PriceComp2.WFPricesFetcher._load_csv rows = PriceCompare.load_data rows "WF"
  /\ (forall row, PriceComp2.WFPricesFetcher.load_row row = PriceCompare._parse_row row "WF").
Proof.
  split; [|exact wf_load_row_is_parse_row].
  unfold PriceComp2.WFPricesFetcher._load_csv, PriceCompare.load_data.
  rewrite wf_load_rows_acc.
  destruct (PriceCompare.parse_rows rows "WF"); reflexivity.
Qed.

(** X11.  The price of a Whole Foods product is the incremental sale price
    when that is not zero, otherwise the sale price when that is not zero,
    otherwise the regular price; a price field the row does not have counts
    as zero, and the row is dropped exactly when all three are zero. *)
Theorem wf_price_precedence (row : Row) (r s i : float) (nm : pyval) :
  py_float_get0 row "regularPrice" = Ok r ->
  py_float_get0 row "salePrice" = Ok s ->
  py_float_get0 row "incrementalSalePrice" = Ok i ->
  row !! "name" = Some nm ->
  PriceCompare._parse_wf_row row
  = Ok (if negb (f_eqb i f_zero) then Some (wf_product row nm i)
        else if negb (f_eqb s f_zero) then Some (wf_product row nm s)
        else if negb (f_eqb r f_zero) then Some (wf_product row nm r)
        else None)
  /\ (forall k, row !! k = None -> py_float_get0 row k = Ok f_zero).
Proof.
  intros Hr Hs Hi Hn. split.
  - unfold PriceCompare._parse_wf_row, dict_getitem, wf_product.
    rewrite Hr, Hs, Hi, Hn. cbn [mbind result_bind]. unfold f_or, f_truthy.
    destruct (f_eqb i f_zero) eqn:Ei; simpl.
    + destruct (f_eqb s f_zero) eqn:Es; simpl.
      * destruct (f_eqb r f_zero) eqn:Er; simpl; reflexivity.
      * rewrite Es. reflexivity.
    + rewrite Ei. simpl. rewrite Ei. reflexivity.
  - intros k Hk. unfold py_float_get0. rewrite Hk. reflexivity.
Qed.

Lemma wf_price_precedence_witness :
  (py_float_get0 negative_price_row "regularPrice" = Ok (S754_finite true 4503599627370496 (-52))
   /\ py_float_get0 negative_price_row "salePrice" = Ok f_zero
   /\ py_float_get0 negative_price_row "incrementalSalePrice" = Ok f_zero
   /\ negative_price_row !! "name" = Some (PyStr "Organic Bananas"))
  /\ PriceCompare._parse_wf_row negative_price_row
     = Ok (Some (wf_product negative_price_row (PyStr "Organic Bananas")
                            (S754_finite true 4503599627370496 (-52)))).
Proof.
  assert (H1 : py_float_get0 negative_price_row "regularPrice"
               = Ok (S754_finite true 4503599627370496 (-52))) by (vm_compute; reflexivity).
  assert (H2 : py_float_get0 negative_price_row "salePrice" = Ok f_zero)
    by (vm_compute; reflexivity).
  assert (H3 : py_float_get0 negative_price_row "incrementalSalePrice" = Ok f_zero)
    by (vm_compute; reflexivity).
  assert (H4 : negative_price_row !! "name" = Some (PyStr "Organic Bananas"))
    by (vm_compute; reflexivity).
  split; [repeat split; assumption|].
  exact (proj1 (wf_price_precedence negative_price_row _ _ _ _ H1 H2 H3 H4)).
Defined.

(* ===================================================================== *)
(** * More on the Trader Joe's loader of price_comp2.py *)
(* ===================================================================== *)

Lemma omap_cons {A B : Type} (f : A -> option B) (x : A) (l : list A) :
  omap f (x :: l) = match f x with
                    | Some y => y :: omap f l
                    | None => omap f l
                    end.
Proof. reflexivity. Qed.

Section CatalogOrder.
Import PriceComp2.TJPricesFetcher TempProductsFacts.
Variable strptime : string -> option datetime.

Lemma load_row_keys (temp_products temp_products' : TempProducts) (row : Row) :
  load_row strptime temp_products row = Ok temp_products' ->
  List.map fst temp_products'
  = match priced_title row with
    | Some t => if bool_decide (t ∈ List.map fst temp_products)
                then List.map fst temp_products
                else (List.map fst temp_products ++ [t])%list
    | None => List.map fst temp_products
    end.
Proof.
  destruct (row !! "item_title") as [t|] eqn:Et.
  2: { unfold load_row, dict_getitem. rewrite Et. discriminate. }
  rewrite (load_row_unfold strptime temp_products row t Et).
  unfold priced_title. rewrite Et.
  destruct (row_price row) as [x|]; [|intros [= <-]; reflexivity].
  unfold should_update. destruct (temp_lookup t temp_products) as [e0|] eqn:El.
  - assert (Hin : t ∈ List.map fst temp_products).
    { apply list_elem_of_In, in_map_iff. exists (t, e0).
      split; [reflexivity | exact (temp_lookup_Some_In _ _ _ El)]. }
    rewrite (bool_decide_eq_true_2 _ Hin).
    destruct (py_strptime strptime (dict_get_default row "inserted_at" default_date))
      as [d1|]; [|cbn; discriminate].
    destruct (py_strptime strptime (e_date e0)) as [d2|]; [|cbn; discriminate].
    cbn [mbind result_bind mret result_ret].
    destruct (dt_gt d1 d2); intros [= <-]; [|reflexivity].
    exact (temp_store_keys _ _ _ _ El).
  - assert (Hnin : ~ t ∈ List.map fst temp_products).
    { rewrite list_elem_of_In. exact (temp_lookup_None _ _ El). }
    rewrite (bool_decide_eq_false_2 _ Hnin).
    cbn [mbind result_bind mret result_ret]. intros [= <-].
    rewrite (temp_store_fresh _ _ _ El), List.map_app. reflexivity.
Qed.

Lemma load_rows_keys (rows : list Row) :
  forall temp_products temp_products',
    load_rows strptime rows temp_products = Ok temp_products' ->
    List.map fst temp_products' = first_seen (List.map fst temp_products) rows.
Proof.
  induction rows as [|row rows IH]; intros tp tp'; simpl.
  - intros [= <-]. reflexivity.
  - destruct (load_row strptime tp row) as [tp1|] eqn:E1; [|discriminate].
    cbn [mbind result_bind]. intros H. rewrite (IH _ _ H).
    rewrite (load_row_keys _ _ _ E1). reflexivity.
Qed.

(** X12.  The catalog the Trader Joe's loader of price_comp2.py returns
    lists the names in the order in which they first appear among the rows
    that pass the price gate: a later, more recent row changes the price of
    a product and not its place. *)
Theorem catalog_in_order_of_first_appearance (rows : list Row)
    (products : list (Product pyval)) :
  _load_csv strptime rows = Return products ->
  List.map name products = first_seen [] rows
  /\ (forall p, In p products -> store p = "TJ").
Proof.
  unfold _load_csv.
  destruct (load_rows strptime rows []) as [tp|] eqn:E; [|discriminate].
  intros [= <-]. split.
  - rewrite List.map_map. simpl.
    exact (load_rows_keys rows [] tp E).
  - intros p Hp. apply in_map_iff in Hp as (nd & <- & _). reflexivity.
Qed.

Lemma temp_lookup_snoc (t k : pyval) (e : entry) (temp_products : TempProducts) :
  temp_lookup t temp_products = None -> t <> k ->
  temp_lookup t (temp_products ++ [(k, e)]) = None.
Proof.
  intros Hl Hne. induction temp_products as [|[k' e'] tp IH]; simpl in *.
  - rewrite bool_decide_eq_false_2 by congruence. reflexivity.
  - destruct (bool_decide (k' = t)); [discriminate | exact (IH Hl)].
Qed.

Lemma load_rows_distinct (rows : list Row) :
  forall temp_products,
    List.Forall (fun row => is_Some (row !! "item_title")) rows ->
    List.NoDup (omap priced_title rows) ->
    (forall t, In t (omap priced_title rows) -> temp_lookup t temp_products = None) ->
    load_rows strptime rows temp_products = Ok (temp_products ++ omap priced_entry rows)%list.
Proof.
  induction rows as [|row rows IH]; intros tp Ht Hnd Hfresh.
  - simpl. rewrite app_nil_r. reflexivity.
  - apply List.Forall_cons_iff in Ht as [[t Et] Ht].
    rewrite omap_cons in Hnd, Hfresh. rewrite omap_cons.
    simpl load_rows. rewrite (load_row_unfold strptime tp row t Et).
    unfold priced_title in Hnd, Hfresh. unfold priced_entry at 1. rewrite Et in *.
    destruct (row_price row) as [x|].
    + apply List.NoDup_cons_iff in Hnd as [Hnin Hnd].
      assert (El : temp_lookup t tp = None) by (apply Hfresh; left; reflexivity).
      unfold should_update. rewrite El. cbn [mbind result_bind mret result_ret].
      rewrite (temp_store_fresh _ _ _ El). rewrite IH; try assumption.
      * rewrite <- app_assoc. reflexivity.
      * intros t' Ht'. apply temp_lookup_snoc; [apply Hfresh; right; exact Ht'|].
        intros ->. exact (Hnin Ht').
    + cbn [mbind result_bind]. apply IH; assumption.
Qed.

Lemma priced_entries_products (rows : list Row) :
  List.map (fun nd : pyval * entry =>
              mkProduct (fst nd) (e_price (snd nd)) "TJ" PyNone PyNone PyNone PyNone)
           (omap priced_entry rows)
  = omap priced_product rows.
Proof.
  induction rows as [|row rows IH]; [reflexivity|].
  rewrite !omap_cons. unfold priced_entry at 1, priced_product at 1.
  destruct (row_price row), (row !! "item_title"); simpl; rewrite ?IH; reflexivity.
Qed.

(** X13.  When every row has a title and no name is priced twice, the
    Trader Joe's loader of price_comp2.py reads no timestamp at all: it
    returns one product for each row that passes the price gate, in row
    order, whatever the timestamps hold, and that is the catalog
    [load_data] of price_compare.py returns for the same rows. *)
Theorem unique_names_load_without_timestamps (rows : list Row) :
  List.Forall (fun row => is_Some (row !! "item_title")) rows ->
  List.NoDup (omap priced_title rows) ->
  _load_csv strptime rows = Return (omap priced_product rows)
  /\ _load_csv strptime rows = PriceCompare.load_data rows "TJ".
Proof.
  intros Ht Hnd.
  assert (E : _load_csv strptime rows = Return (omap priced_product rows)).
  { unfold _load_csv.
    rewrite (load_rows_distinct rows [] Ht Hnd) by (intros; reflexivity).
    simpl. rewrite priced_entries_products. reflexivity. }
  split; [exact E|]. rewrite E. unfold PriceCompare.load_data.
  rewrite compare_parse_rows_tj by discriminate. reflexivity.
Qed.

End CatalogOrder.

Lemma catalog_in_order_of_first_appearance_witness :
  PriceComp2.TJPricesFetcher._load_csv strptime_padded milk_history
  = Return [ mkProduct (PyStr "Whole Milk") (float_of_decimal false 419 (-2)) "TJ"
                       PyNone PyNone PyNone PyNone;
             mkProduct (PyStr "Eggs") (float_of_decimal false 129 (-2)) "TJ"
                       PyNone PyNone PyNone PyNone ]
  /\ [PyStr "Whole Milk"; PyStr "Eggs"] = first_seen [] milk_history.
Proof.
  assert (H : PriceComp2.TJPricesFetcher._load_csv strptime_padded milk_history
              = Return [ mkProduct (PyStr "Whole Milk") (float_of_decimal false 419 (-2)) "TJ"
                                   PyNone PyNone PyNone PyNone;
                         mkProduct (PyStr "Eggs") (float_of_decimal false 129 (-2)) "TJ"
                                   PyNone PyNone PyNone PyNone ])
    by (vm_compute; reflexivity).
  split; [exact H|].
  exact (proj1 (catalog_in_order_of_first_appearance strptime_padded milk_history _ H)).
Defined.

Lemma unique_names_load_without_timestamps_witness :
  (List.Forall (fun row => is_Some (row !! "item_title")) unique_names_rows
   /\ List.NoDup (omap priced_title unique_names_rows))
  /\ PriceComp2.TJPricesFetcher._load_csv (fun _ => None) unique_names_rows
     = Return (omap priced_product unique_names_rows).
Proof.
  assert (H1 : List.Forall (fun row => is_Some (row !! "item_title")) unique_names_rows).
  { repeat constructor; vm_compute; eexists; reflexivity. }
  assert (H2 : List.NoDup (omap priced_title unique_names_rows)).
  { vm_compute. repeat constructor; simpl; intuition discriminate. }
  split; [split; assumption|].
  exact (proj1 (unique_names_load_without_timestamps (fun _ => None) unique_names_rows H1 H2)).
Defined.

(* ===================================================================== *)
(** * More on [compare_items] *)
(* ===================================================================== *)

Section CompareItems.
Variable fuzz_ratio : string -> string -> Z.
Variable prompt : string -> string -> Catalog -> option (Product string).
Variables tj_products wf_products : Catalog.

Lemma compare_item_strip (item : string) :
  PriceComp2.compare_item fuzz_ratio prompt tj_products wf_products (strip item)
  = PriceComp2.compare_item fuzz_ratio prompt tj_products wf_products item.
Proof. unfold PriceComp2.compare_item. rewrite strip_idempotent. reflexivity. Qed.

Lemma compare_item_blank (item : string) :
  strip item = "" ->
  PriceComp2.compare_item fuzz_ratio prompt tj_products wf_products item = None.
Proof. intros H. unfold PriceComp2.compare_item. rewrite H. reflexivity. Qed.

Lemma omap_compare_item_strip (items : list string) :
  omap (PriceComp2.compare_item fuzz_ratio prompt tj_products wf_products)
       (List.map strip items)
  = omap (PriceComp2.compare_item fuzz_ratio prompt tj_products wf_products) items.
Proof.
  induction items as [|item items IH]; [reflexivity|].
  simpl List.map. rewrite !omap_cons, compare_item_strip, IH. reflexivity.
Qed.

(** X14.  [compare_items] of price_comp2.py trims every item before it is
    matched and passes over the items that are blank: the comparison of a
    list of items is the comparison of the trimmed items, and an empty or
    all-blank item, wherever it stands, leaves the result as it is. *)
Theorem compare_items_trims_and_skips_blanks (items : list string) :
  PriceComp2.compare_items fuzz_ratio prompt tj_products wf_products items
  = PriceComp2.compare_items fuzz_ratio prompt tj_products wf_products (List.map strip items)
  /\ (forall before blank after,
        strip blank = "" ->
        PriceComp2.compare_items fuzz_ratio prompt tj_products wf_products
          (before ++ blank :: after)
        = PriceComp2.compare_items fuzz_ratio prompt tj_products wf_products
            (before ++ after))
  /\ PriceComp2.compare_items fuzz_ratio prompt tj_products wf_products []
     = mkPriceComparison f_zero f_zero f_zero "WF" [].
Proof.
  unfold PriceComp2.compare_items. split; [|split].
  - rewrite omap_compare_item_strip. reflexivity.
  - intros before blank after Hb.
    rewrite !omap_app, omap_cons, (compare_item_blank blank Hb). reflexivity.
  - reflexivity.
Qed.

Lemma select_product_from_matches (query store : string) (matches : Catalog)
    (p : Product string) :
  answers_from_shown prompt ->
  PriceComp2._select_product prompt query matches store = Some p -> In p matches.
Proof.
  intros Hp. destruct matches as [|a [|b l]]; simpl.
  - discriminate.
  - intros [= <-]. left; reflexivity.
  - intros H. apply Hp in H. exact (firstn_In_incl 10 (a :: b :: l) p H).
Qed.

Lemma display_matches_from_matches (query store : string) (matches : Catalog)
    (p : Product string) :
  answers_from_shown prompt ->
  PriceComp._display_matches prompt matches store query = Some p -> In p matches.
Proof.
  intros Hp. destruct matches as [|a l]; simpl; [discriminate|]. apply Hp.
Qed.

(** X15.  When the user answers with one of the products shown, every
    product that enters a comparison comes from the catalog of its own
    store and reached the default threshold 65 for the item it was chosen
    for: in price_comp2.py the item as trimmed, in price-comp.py and
    price_compare.py the item as typed. *)
Theorem chosen_products_are_matches (entered : list string) :
  answers_from_shown prompt ->
  (forall a b,
      In (a, b) (items
                   (PriceComp2.compare_items fuzz_ratio prompt tj_products wf_products entered)) ->
      exists item, In item entered
        /\ (forall p, a = Some p ->
              In p tj_products /\ 65 <= assigned_ratio fuzz_ratio (lower (strip item)) p)
        /\ (forall p, b = Some p ->
              In p wf_products /\ 65 <= assigned_ratio fuzz_ratio (lower (strip item)) p))
  /\ (forall a b,
        In (a, b) (items
                     (PriceComp.compare_items fuzz_ratio prompt tj_products wf_products entered)) ->
        exists item, In item entered
          /\ (forall p, a = Some p ->
                In p tj_products /\ 65 <= assigned_ratio fuzz_ratio (lower item) p)
          /\ (forall p, b = Some p ->
                In p wf_products /\ 65 <= assigned_ratio fuzz_ratio (lower item) p)).
Proof.
  intros Hp. split; intros a b Hab.
  - unfold PriceComp2.compare_items, summarize in Hab. simpl in Hab.
    apply list_elem_of_In, list_elem_of_omap in Hab as (item & Hitem & Hc).
    apply list_elem_of_In in Hitem. exists item. split; [exact Hitem|].
    unfold PriceComp2.compare_item in Hc.
    destruct (bool_decide (strip item = "")); [discriminate|].
    injection Hc as <- <-. split; intros p Hsel;
      apply (select_product_from_matches _ _ _ _ Hp) in Hsel;
      apply ranked_matches_In in Hsel; exact Hsel.
  - unfold PriceComp.compare_items, summarize in Hab. simpl in Hab.
    apply in_map_iff in Hab as (item & Hc & Hitem).
    exists item. split; [exact Hitem|].
    unfold PriceComp.compare_item in Hc. injection Hc as <- <-.
    split; intros p Hsel;
      apply (display_matches_from_matches _ _ _ _ Hp) in Hsel;
      apply (firstn_In_incl 10) in Hsel;
      apply ranked_matches_In in Hsel; exact Hsel.
Qed.

End CompareItems.

Lemma first_shown_answers_from_shown : answers_from_shown first_shown.
Proof.
  intros store query [|a l] p; simpl; [discriminate|].
  intros [= <-]. left; reflexivity.
Qed.

Lemma chosen_products_are_matches_witness :
  answers_from_shown first_shown
  /\ forall a b,
       In (a, b) (items (PriceComp2.compare_items thefuzz_ratio first_shown
                           [organic_whole_milk; mild] [organic_bananas] [" milk "])) ->
       exists item, In item [" milk "]
         /\ (forall p, a = Some p ->
               In p [organic_whole_milk; mild]
               /\ 65 <= assigned_ratio thefuzz_ratio (lower (strip item)) p)
         /\ (forall p, b = Some p ->
               In p [organic_bananas]
               /\ 65 <= assigned_ratio thefuzz_ratio (lower (strip item)) p).
Proof.
  split; [exact first_shown_answers_from_shown|].
  exact (proj1 (chosen_products_are_matches thefuzz_ratio first_shown
                  [organic_whole_milk; mild] [organic_bananas] [" milk "]
                  first_shown_answers_from_shown)).
Defined.

(* ===================================================================== *)
(** * The display of a product *)
(* ===================================================================== *)

Lemma append_nil_r (s : string) : String.append s "" = s.
Proof.
  induction s as [|c s IH]; [reflexivity|].
  change (String c (String.append s "") = String c s). rewrite IH. reflexivity.
Qed.

Lemma append_assoc (a b c : string) :
  String.append (String.append a b) c = String.append a (String.append b c).
Proof.
  induction a as [|x a IH]; [reflexivity|].
  change (String x (String.append (String.append a b) c)
          = String x (String.append a (String.append b c))).
  rewrite IH. reflexivity.
Qed.

Lemma substring_after (pre q : string) : Substring q (String.append pre q).
Proof. exists pre, "". rewrite append_nil_r. reflexivity. Qed.

Lemma substring_before (q post : string) : Substring q (String.append q post).
Proof. exists "", post. reflexivity. Qed.

Lemma substring_between (pre q post : string) :
  Substring q (String.append pre (String.append q post)).
Proof. exists pre, post. reflexivity. Qed.

(** X16.  [display_name] always shows the name of the product, whole; it
    is the name alone when the product has no brand to show and no size;
    and the department tags PRODUCE, MEAT and SEAFOOD, like an empty brand,
    are never shown as a brand. *)
Theorem display_name_shows_the_name (p : Product string) :
  Substring (name p) (display_name p)
  /\ (shows_brand (brand p) = false -> truthy (size p) = false -> display_name p = name p)
  /\ (forall b, In b generic_brands \/ b = "" -> shows_brand (PyStr b) = false).
Proof.
  split; [|split].
  - unfold display_name.
    destruct (brand p) as [|b]; [|destruct (shows_brand (PyStr b))];
      destruct (size p) as [|[|c z]]; simpl join_spaces;
      try (exists "", ""; rewrite append_nil_r; reflexivity);
      try apply substring_before; try apply substring_between.
    + rewrite <- append_assoc. apply substring_after.
    + rewrite <- append_assoc. apply substring_after.
    + rewrite <- (append_assoc b " "). apply substring_between.
  - unfold display_name. intros Hb Hs.
    destruct (brand p) as [|b]; [|rewrite Hb];
      destruct (size p) as [|[|c z]]; try discriminate; reflexivity.
  - intros b [[<-|[<-|[<-|[]]]]| ->]; reflexivity.
Qed.

Lemma all_from_spec (f : Z -> bool) (n : nat) :
  forall c, all_from f n c = true ->
            forall k, c <= k < c + Z.of_nat n -> f k = true.
Proof.
  induction n as [|n IH]; intros c H k Hk; [lia|].
  simpl in H. apply andb_true_iff in H as [Hc H].
  destruct (Z.eq_dec k c) as [->|Hne]; [exact Hc|].
  apply (IH (c + 1) H). lia.
Qed.

Lemma prices_below_100_display_as_written :
  all_from displays_as_written (Z.to_nat 10000) 0 = true.
Proof. vm_compute. reflexivity. Qed.

(** X17.  A price from 0.00 to 99.99 written with two decimals is shown
    by [display_price] as it was written: its text reads as a float whose
    display is a dollar sign, the same text and, when the product has a
    unit, a slash and the unit. *)
Theorem display_price_shows_price_as_written (cents : Z) :
  0 <= cents < 10000 ->
  exists x : float,
    float_of_string (two_decimals cents) = Some x
    /\ format_2f x = two_decimals cents
    /\ (forall (N : Type) (nm : N) st sz br sk,
          display_price (mkProduct nm x st sz PyNone br sk)
          = String.append "$" (two_decimals cents)
          /\ display_price (mkProduct nm x st sz (PyStr "") br sk)
             = String.append "$" (two_decimals cents)
          /\ (forall u, u <> "" ->
              display_price (mkProduct nm x st sz (PyStr u) br sk)
                = String.append "$" (String.append (two_decimals cents)
                                                   (String.append "/" u)))).
Proof.
  intros Hc.
  pose proof (all_from_spec displays_as_written _ 0 prices_below_100_display_as_written
                cents) as H.
  rewrite Z2Nat.id in H by lia. specialize (H ltac:(lia)).
  unfold displays_as_written in H.
  destruct (float_of_string (two_decimals cents)) as [x|]; [|discriminate].
  apply String.eqb_eq in H. exists x. split; [reflexivity|]. split; [exact H|].
  intros N nm st sz br sk. unfold display_price. simpl. rewrite H.
  split; [reflexivity|]. split; [reflexivity|].
  intros [|c u] Hu; [contradiction | reflexivity].
Qed.

Lemma display_price_shows_price_as_written_witness :
  0 <= 79 < 10000
  /\ exists x : float,
       float_of_string (two_decimals 79) = Some x
       /\ format_2f x = two_decimals 79
       /\ (forall (N : Type) (nm : N) st sz br sk,
             display_price (mkProduct nm x st sz PyNone br sk)
             = String.append "$" (two_decimals 79)
             /\ display_price (mkProduct nm x st sz (PyStr "") br sk)
                = String.append "$" (two_decimals 79)
             /\ (forall u, u <> "" ->
              display_price (mkProduct nm x st sz (PyStr u) br sk)
                = String.append "$" (String.append (two_decimals 79)
                                                   (String.append "/" u)))).
Proof.
  assert (H : 0 <= 79 < 10000) by lia.
  split; [exact H|].
  exact (display_price_shows_price_as_written 79 H).
Defined.

(* ===================================================================== *)
(** * More on [load_data] of price-comp.py *)
(* ===================================================================== *)

Lemma parse_row_without_title (bad : Row) (store : string) (x : float) :
  bad !! "item_title" = Some PyNone ->
  py_float (dict_get_default bad "retail_price" (PyStr "0")) = Ok x ->
  (store = "TJ" -> f_leb x f_0_01 = false) ->
  PriceComp._parse_row bad store = Raise AttributeError.
Proof.
  intros Ht Hx Htj. unfold PriceComp._parse_row. rewrite Hx.
  cbn [mbind result_bind]. unfold PriceComp.filtered_out, dict_get_default. rewrite Ht.
  destruct (bool_decide (store = "WF")) eqn:Ewf.
  - destruct (f_eqb x f_0_01); reflexivity.
  - destruct (bool_decide (store = "TJ")) eqn:Etj; [|reflexivity].
    apply bool_decide_eq_true_1 in Etj. rewrite (Htj Etj). reflexivity.
Qed.

Lemma parse_rows_raise (rows1 rows2 : list Row) (bad : Row) (store : string) (e : exn) :
  PriceComp._parse_row bad store = Raise e ->
  exists e', PriceComp.parse_rows (rows1 ++ bad :: rows2) store = Raise e'.
Proof.
  intros H. induction rows1 as [|row rows1 [e' IH]]; simpl.
  - rewrite H. exists e. reflexivity.
  - rewrite IH. destruct (PriceComp._parse_row row store) as [o|e0];
      [exists e' | exists e0]; reflexivity.
Qed.

(** X18.  One row without a title empties the catalog of price-comp.py:
    when a row holds [None] under [item_title] and a price that reads as a
    number (under the tag ['TJ'], one above 0.01), [_parse_row] raises
    [AttributeError], which [load_data] catches by returning no product at
    all, whatever the rows before and after hold. *)
Theorem row_without_title_empties_catalog
    (rows1 rows2 : list Row) (bad : Row) (store : string) (x : float) :
  bad !! "item_title" = Some PyNone ->
  py_float (dict_get_default bad "retail_price" (PyStr "0")) = Ok x ->
  (store = "TJ" -> f_leb x f_0_01 = false) ->
  PriceComp._parse_row bad store = Raise AttributeError
  /\ PriceComp.load_data (rows1 ++ bad :: rows2) store = [].
Proof.
  intros Ht Hx Htj.
  pose proof (parse_row_without_title bad store x Ht Hx Htj) as Hb.
  split; [exact Hb|]. unfold PriceComp.load_data.
  destruct (parse_rows_raise rows1 rows2 bad store _ Hb) as [e' ->]. reflexivity.
Qed.

Lemma row_without_title_empties_catalog_witness :
  (short_row !! "item_title" = Some PyNone
   /\ py_float (dict_get_default short_row "retail_price" (PyStr "0"))
      = Ok (float_of_decimal false 499 (-2))
   /\ ("TJ" = "TJ" -> f_leb (float_of_decimal false 499 (-2)) f_0_01 = false))
  /\ PriceComp.load_data ([milk_row] ++ short_row :: [olive_oil_row]) "TJ" = [].
Proof.
  assert (H1 : short_row !! "item_title" = Some PyNone) by (vm_compute; reflexivity).
  assert (H2 : py_float (dict_get_default short_row "retail_price" (PyStr "0"))
               = Ok (float_of_decimal false 499 (-2))) by (vm_compute; reflexivity).
  assert (H3 : "TJ" = "TJ" -> f_leb (float_of_decimal false 499 (-2)) f_0_01 = false)
    by (intros _; vm_compute; reflexivity).
  split; [repeat split; assumption|].
  exact (proj2 (row_without_title_empties_catalog [milk_row] [olive_oil_row] short_row "TJ"
                  _ H1 H2 H3)).
Defined.
